(** * CreditAlpha Co-Pilot: the workflow orchestrators and their helpers

    A shallow embedding of [services/claude.ts], [services/gemini.ts],
    [services/prompts.ts] ([cleanJson]) and of [handleSendMessage] in
    [App.tsx], with the properties of the merge engine, the event stream,
    the output extractor and the request construction.

    JavaScript objects are finite maps from property names to values
    ([gmap string value]); a thrown exception is the [Throw] case of
    [result]. *)

From Stdlib Require Import Ascii String QArith.
From stdpp Require Import base option list strings gmap pretty.

Open Scope string_scope.
Set Warnings "-register-all,-clear-no-such-hyp".

(** ** Runtime values *)

(** What [JSON.parse] returns and what a memo holds at run time. A number
    is carried by its canonical rendering ([Number.prototype.toString]):
    that fixes both its truthiness and its conversion to a string, the only
    two things the orchestrators do with a number. *)
Inductive value :=
| VUndef
| VNull
| VBool (b : bool)
| VNum (repr : string)
| VStr (s : string)
| VArr (elems : list value)
| VObj (props : gmap string value).

(** An exception: an instance of [Error] with its [message], or any other
    thrown value. *)
Inductive exn :=
| JsError (message : string)
| JsThrown (v : value).

Inductive result (A : Type) :=
| Ok (a : A)
| Throw (e : exn).
Arguments Ok {A} a.
Arguments Throw {A} e.

Definition bind {A B} (r : result A) (k : A → result B) : result B :=
  match r with
  | Ok a => k a
  | Throw e => Throw e
  end.

Notation "'let!' x ':=' r 'in' k" := (bind r (fun x => k))
  (at level 10, x name, r at level 100, k at level 200).

(** ToBoolean. *)
Definition truthy (v : value) : bool :=
  match v with
  | VUndef | VNull => false
  | VBool b => b
  | VNum r => negb (String.eqb r "0" || String.eqb r "-0" || String.eqb r "NaN")
  | VStr s => negb (String.eqb s EmptyString)
  | VArr _ | VObj _ => true
  end.

(** [a || b]: [b] is evaluated (and may throw) only when [a] is falsy. *)
Definition or_else (a : value) (b : result value) : result value :=
  if truthy a then Ok a else b.

(** Index keys ["0"], ["1"], ... of an array or of a string's characters. *)
Definition indexed (l : list value) : gmap string value :=
  list_to_map (imap (fun i x => (pretty i, x)) l).

Definition chars (s : string) : list value :=
  (fun c => VStr (String c EmptyString)) <$> list_ascii_of_string s.

(** The own enumerable properties of a value: what [{...v}] copies. *)
Definition ownProps (v : value) : gmap string value :=
  match v with
  | VObj m => m
  | VArr l => indexed l
  | VStr s => indexed (chars s)
  | _ => ∅
  end.

(** [{...a, ...b}]: the properties of [b] win. *)
Definition spread2 (a b : value) : gmap string value :=
  ownProps b ∪ ownProps a.

Definition is_nullish (v : value) : bool :=
  match v with
  | VUndef | VNull => true
  | _ => false
  end.

(** ToString, as a template literal [`${v}`] and [String(v)] compute it. *)
Fixpoint js_String (v : value) : string :=
  match v with
  | VUndef => "undefined"
  | VNull => "null"
  | VBool true => "true"
  | VBool false => "false"
  | VNum r => r
  | VStr s => s
  | VArr l =>
      (fix join (l : list value) : string :=
         match l with
         | [] => EmptyString
         | [x] => if is_nullish x then EmptyString else js_String x
         | x :: rest =>
             (if is_nullish x then EmptyString else js_String x)
             +:+ "," +:+ join rest
         end) l
  | VObj _ => "[object Object]"
  end.

(** The message of the TypeError raised by reading property [k] of
    [undefined] or [null] (the engine's wording). *)
Definition cannot_read (v : value) (k : string) : exn :=
  JsError ("Cannot read properties of " +:+ js_String v +:+
           " (reading '" +:+ k +:+ "')").

(** [v.k] for a property name that is neither inherited nor [length]: every
    name the orchestrators read is of that kind. *)
Definition get (v : value) (k : string) : result value :=
  if is_nullish v then Throw (cannot_read v k)
  else Ok (default VUndef (ownProps v !! k)).

(** [v?.k] *)
Definition get_opt (v : value) (k : string) : value :=
  if is_nullish v then VUndef else default VUndef (ownProps v !! k).

(** [o.k] on a memo, which is always an object. *)
Definition rd (o : gmap string value) (k : string) : value :=
  default VUndef (o !! k).

(** ** Output extractor *)

(** Strings are sequences of code units, each [ascii] standing for a code
    unit below 256. The white space of [String.prototype.trim] and of the
    regular expression class [\s] in that range: TAB, LF, VT, FF, CR, SP and
    NBSP. *)
Definition is_ws (c : ascii) : bool :=
  let n := nat_of_ascii c in
  (Nat.leb 9 n && Nat.leb n 13) || Nat.eqb n 32 || Nat.eqb n 160.

Fixpoint trimStart (s : string) : string :=
  match s with
  | String c r => if is_ws c then trimStart r else s
  | EmptyString => EmptyString
  end.

Fixpoint trimEnd (s : string) : string :=
  match s with
  | EmptyString => EmptyString
  | String c r =>
      match trimEnd r with
      | EmptyString => if is_ws c then EmptyString else String c EmptyString
      | r' => String c r'
      end
  end.

(** [s.trim()] *)
Definition trim (s : string) : string := trimEnd (trimStart s).

Fixpoint dropS (n : nat) (s : string) : string :=
  match n, s with
  | S n', String _ r => dropS n' r
  | _, _ => s
  end.

(** [s.startsWith(p)] *)
Definition startsWith (p s : string) : bool := String.prefix p s.

(** [s.replace(/^p\s*/, '')] for a literal [p]: anchored at the start, the
    white space after [p] taken greedily. *)
Definition replaceOpen (p s : string) : string :=
  if startsWith p s then trimStart (dropS (String.length p) s) else s.

Definition fence : string := "```".

(** [s.replace(/\s*```$/, '')]: the match starts at the leftmost position
    whose whole remainder is white space followed by the fence; [$] has no
    [m] flag, so it is the end of the string. *)
Fixpoint replaceClose (s : string) : string :=
  if String.eqb (trimStart s) fence then EmptyString
  else match s with
       | EmptyString => EmptyString
       | String c r => String c (replaceClose r)
       end.

(** [cleanJson] of [services/prompts.ts]. *)
Definition cleanJson (text : string) : string :=
  let cleaned := trim text in
  if startsWith "```json" cleaned then
    replaceClose (replaceOpen "```json" cleaned)
  else if startsWith fence cleaned then
    replaceClose (replaceOpen fence cleaned)
  else cleaned.

(** [cleanJson] called on whatever the caller passes: [text.trim()] throws
    when [text] is not a string. *)
Definition cleanJson_call (text : value) : result string :=
  match text with
  | VStr s => Ok (cleanJson s)
  | VUndef | VNull => Throw (cannot_read text "trim")
  | _ => Throw (JsError "text.trim is not a function")
  end.

(** [b.type === 'text'] *)
Definition is_text_tag (t : value) : bool :=
  match t with
  | VStr s => String.eqb s "text"
  | _ => false
  end.

(** [content.find(b => b.type === 'text')] *)
Fixpoint find_text (content : list value) : result value :=
  match content with
  | [] => Ok VUndef
  | b :: rest =>
      let! t := get b "type" in
      if is_text_tag t then Ok b else find_text rest
  end.

(** [extractText] of [services/claude.ts]. *)
Definition extractText (content : value) : result value :=
  match content with
  | VArr l =>
      let! textBlock := find_text l in
      if truthy textBlock then get textBlock "text" else Ok (VStr "{}")
  | _ => Ok (VStr "{}")
  end.


(** ** The memo and the per-phase merges *)

(** A memo ([MemoData]) at run time: an object. *)
Abbreviation memo := (gmap string value).

(** [patch.k || workingMemo.k] *)
Definition fallback (patch : value) (workingMemo : memo) (k : string)
  : result value :=
  let! p := get patch k in
  or_else p (Ok (rd workingMemo k)).

(** [covData.termSheet?.k || workingMemo.termSheet.k] *)
Definition covFallback (covData : value) (workingMemo : memo) (k : string)
  : result value :=
  let! ts := get covData "termSheet" in
  or_else (get_opt ts k) (get (rd workingMemo "termSheet") k).

(** Phase 1: [{...workingMemo, companyOverview: ..., marketAnalysis: ...}] *)
Definition merge1 (workingMemo : memo) (researchData : value) : result memo :=
  let! companyOverview := fallback researchData workingMemo "companyOverview" in
  let! marketAnalysis := fallback researchData workingMemo "marketAnalysis" in
  Ok (<["marketAnalysis" := marketAnalysis]>
      (<["companyOverview" := companyOverview]> workingMemo)).

(** Phase 2. *)
Definition merge2 (workingMemo : memo) (financialData : value) : result memo :=
  let! financialModel := fallback financialData workingMemo "financialModel" in
  let! financialAnalysis :=
    fallback financialData workingMemo "financialAnalysis" in
  let! scenarios := fallback financialData workingMemo "scenarios" in
  let! capitalStructure :=
    fallback financialData workingMemo "capitalStructure" in
  Ok (<["capitalStructure" := capitalStructure]>
      (<["scenarios" := scenarios]>
       (<["financialAnalysis" := financialAnalysis]>
        (<["financialModel" := financialModel]> workingMemo)))).

(** Phase 3. *)
Definition merge3 (workingMemo : memo) (riskData : value) : result memo :=
  let! risks := fallback riskData workingMemo "risks" in
  Ok (<["risks" := risks]> workingMemo).

(** Phase 4: the term sheet is spread, the capital structure falls back. *)
Definition merge4 (workingMemo : memo) (structData : value) : result memo :=
  let! patchTerms := get structData "termSheet" in
  let termSheet := VObj (spread2 (rd workingMemo "termSheet") patchTerms) in
  let! capitalStructure :=
    fallback structData workingMemo "capitalStructure" in
  Ok (<["capitalStructure" := capitalStructure]>
      (<["termSheet" := termSheet]> workingMemo)).

(** Phase 5: three covenant lists are set on a copy of the term sheet. *)
Definition merge5 (workingMemo : memo) (covData : value) : result memo :=
  let base := ownProps (rd workingMemo "termSheet") in
  let! maintenanceCovenants :=
    covFallback covData workingMemo "maintenanceCovenants" in
  let! negativeCovenants :=
    covFallback covData workingMemo "negativeCovenants" in
  let! conditionsPrecedent :=
    covFallback covData workingMemo "conditionsPrecedent" in
  Ok (<["termSheet" :=
         VObj (<["conditionsPrecedent" := conditionsPrecedent]>
               (<["negativeCovenants" := negativeCovenants]>
                (<["maintenanceCovenants" := maintenanceCovenants]> base)))]>
      workingMemo).

(** [writerData.title || `Investment Memo: ${workingMemo.termSheet.borrower}`] *)
Definition titleOf (workingMemo : memo) (writerData : value) : result value :=
  let! t := get writerData "title" in
  or_else t
    (let! borrower := get (rd workingMemo "termSheet") "borrower" in
     Ok (VStr ("Investment Memo: " +:+ js_String borrower))).

(** Phase 6. *)
Definition merge6 (workingMemo : memo) (writerData : value) : result memo :=
  let! title := titleOf workingMemo writerData in
  let! recommendation := fallback writerData workingMemo "recommendation" in
  let! executiveSummary :=
    fallback writerData workingMemo "executiveSummary" in
  let! investmentThesis :=
    fallback writerData workingMemo "investmentThesis" in
  let! investmentHighlights :=
    fallback writerData workingMemo "investmentHighlights" in
  let! businessAnalysis :=
    fallback writerData workingMemo "businessAnalysis" in
  let! downsideAnalysis :=
    fallback writerData workingMemo "downsideAnalysis" in
  let! patchTerms := get writerData "termSheet" in
  let termSheet := VObj (spread2 (rd workingMemo "termSheet") patchTerms) in
  Ok (<["status" := VStr "Draft"]>
      (<["termSheet" := termSheet]>
       (<["downsideAnalysis" := downsideAnalysis]>
        (<["businessAnalysis" := businessAnalysis]>
         (<["investmentHighlights" := investmentHighlights]>
          (<["investmentThesis" := investmentThesis]>
           (<["executiveSummary" := executiveSummary]>
            (<["recommendation" := recommendation]>
             (<["title" := title]> workingMemo))))))))).

(** The merge of phase [k] (1 to 6); both orchestrators use the same six. *)
Definition mergeOf (k : nat) : memo → value → result memo :=
  match k with
  | 1 => merge1
  | 2 => merge2
  | 3 => merge3
  | 4 => merge4
  | 5 => merge5
  | 6 => merge6
  | _ => fun workingMemo _ => Ok workingMemo
  end.

(** [{ k1: workingMemo.k1, ... }]: the [partialData] of a completed event. *)
Definition pick (keys : list string) (workingMemo : memo) : memo :=
  list_to_map ((fun k => (k, rd workingMemo k)) <$> keys).

(** ** Request construction for the Claude backend *)

Definition nl : string := String (ascii_of_nat 10) EmptyString.

Record Attachment := {
  name : string;
  mimeType : string;
  data : string;   (* base64 *)
}.

Record skill := {
  skill_type : string;
  skill_id : string;
  version : string;
}.

Definition SKILLS_PDF : skill := {| skill_type := "anthropic"; skill_id := "pdf"; version := "latest" |}.
Definition SKILLS_EXCEL : skill := {| skill_type := "anthropic"; skill_id := "xlsx"; version := "latest" |}.
Definition SKILLS_PPT : skill := {| skill_type := "anthropic"; skill_id := "pptx"; version := "latest" |}.
Definition SKILLS_DOCS : skill := {| skill_type := "anthropic"; skill_id := "docx"; version := "latest" |}.

Definition CLAUDE_SONNET : string := "claude-sonnet-4-5-20250929".
Definition CLAUDE_OPUS : string := "claude-opus-4-1-20250805".

(** The argument of [generateWithClaude]; [None] is an omitted property,
    which takes the default of the destructuring pattern. *)
Record GenerateOptions := {
  o_model : string;
  systemPrompt : string;
  userPrompt : string;
  o_attachments : option (list Attachment);
  useThinking : option bool;
  o_temperature : option Q;
  skills : option (list skill);
}.

(** A content block of the user message; the [source] of a binary block is
    always of type [base64]. *)
Inductive block :=
| DocumentBlock (media_type : string) (payload : string)
| ImageBlock (media_type : string) (payload : string)
| TextBlock (text : string).

Record tool := { tool_type : string; tool_name : string }.

Record thinkingConfig := { thinking_type : string; budget_tokens : N }.

(** The [config] object handed to [anthropic.messages.create]; an absent
    property is [None]. [messages] is the content of the one user message. *)
Record config := {
  model : string;
  max_tokens : N;
  system : string;
  messages : list block;
  betas : list string;
  container : option (list skill);
  tools : option (list tool);
  thinking : option thinkingConfig;
  temperature : option Q;
}.

(** One turn of the loop over the attachments: the blocks pushed so far and
    [textContext]. *)
Definition routeAttachment (acc : list block * string) (att : Attachment)
  : list block * string :=
  let '(content, textContext) := acc in
  if String.eqb (mimeType att) "application/pdf" then
    ((content ++ [DocumentBlock "application/pdf" (data att)])%list,
     textContext +:+ nl +:+ nl +:+ "[Attached PDF: " +:+ name att +:+ "]")
  else if startsWith "image/" (mimeType att) then
    ((content ++ [ImageBlock (mimeType att) (data att)])%list,
     textContext +:+ nl +:+ nl +:+ "[Attached Image: " +:+ name att +:+ "]")
  else
    (content,
     textContext +:+ nl +:+ nl +:+ "[Attachment: " +:+ name att +:+ " ("
       +:+ mimeType att +:+ ")]" +:+ nl +:+ "(Base64 Data: "
       +:+ String.substring 0 50 (data att) +:+ "...)").

Definition userContent (atts : list Attachment) (prompt : string)
  : list block :=
  let '(content, textContext) := foldl routeAttachment ([], prompt) atts in
  (content ++ [TextBlock textContext])%list.

(** The [config] that [generateWithClaude] builds before the call. *)
Definition buildConfig (o : GenerateOptions) : config :=
  let attachments := default [] (o_attachments o) in
  let useThinking := default false (useThinking o) in
  let temperature := default 0%Q (o_temperature o) in
  let skills := default [] (skills o) in
  let thinks := useThinking && bool_decide (o_model o = CLAUDE_SONNET) in
  {| model := o_model o;
     max_tokens := if useThinking then 16000%N else 8000%N;
     system := systemPrompt o;
     messages := userContent attachments (userPrompt o);
     betas := ["code-execution-2025-08-25"; "skills-2025-10-02"];
     container := if bool_decide (0 < length skills) then Some skills else None;
     tools := if bool_decide (0 < length skills)
              then Some [{| tool_type := "code_execution_20250825";
                            tool_name := "code_execution" |}]
              else None;
     thinking := if thinks
                 then Some {| thinking_type := "enabled"; budget_tokens := 8000 |}
                 else None;
     temperature := if thinks then None else Some temperature |}.

(** ** Requests of the Gemini backend *)

Inductive part :=
| InlineData (a : Attachment)
| TextPart (text : string).

(** [ai.models.generateContent({model, contents: {parts}, config})] *)
Record geminiRequest := {
  g_model : string;
  parts : list part;
  googleSearch : bool;
  responseMimeType : string;
}.

Inductive request :=
| ClaudeRequest (c : config)
| GeminiRequest (g : geminiRequest)
| GeminiChat (systemInstruction : string) (message : string).

(** ** Events *)

Inductive AgentType :=
| Orchestrator | DataCollector | FinancialModeler | RiskAnalyst
| StructuringExpert | CovenantDesigner | Writer.

Inductive EventStatus := active | completed | failed | pending.

(** A [WorkflowEvent] without its [id] and [timestamp], which are read off
    the clock. *)
Record WorkflowEvent := {
  agent : AgentType;
  status : EventStatus;
  message : string;
}.

Definition createEvent (a : AgentType) (st : EventStatus) (msg : string)
  : WorkflowEvent :=
  {| agent := a; status := st; message := msg |}.

(** What the generator yields. *)
Record step := {
  event : WorkflowEvent;
  partialData : option memo;
}.

(** What a run does, in order: it yields a step or issues its [n]-th backend
    call. *)
Inductive obs :=
| Emit (s : step)
| Call (n : nat) (r : request).

(** ** Generators

    An async generator driven to its end: what it did, then how it ended. *)
Definition gen (A : Type) : Type := list obs * result A.

Definition gbind {A B} (m : gen A) (k : A → gen B) : gen B :=
  match m with
  | (done, Ok a) => let '(more, r) := k a in ((done ++ more)%list, r)
  | (done, Throw e) => (done, Throw e)
  end.

Definition yield (e : WorkflowEvent) (pd : option memo) : gen unit :=
  ([Emit {| event := e; partialData := pd |}], Ok tt).

Definition lift {A} (r : result A) : gen A := ([], r).

(** [try { body } catch (error) { handler }] *)
Definition tryCatch {A} (body : gen A) (handler : exn → gen A) : gen A :=
  match body with
  | (done, Ok a) => (done, Ok a)
  | (done, Throw e) => let '(more, r) := handler e in ((done ++ more)%list, r)
  end.

Notation "'run!' x ':=' m 'in' k" := (gbind m (fun x => k))
  (at level 10, x name, m at level 100, k at level 200).
Notation "m '>>' k" := (gbind m (fun _ => k))
  (at level 100, k at level 200, right associativity).

(** ** The two orchestrators *)

(** The prompt templates of [services/prompts.ts] and the user prompts the
    orchestrators assemble around them. Their text goes to the backend and
    nowhere else, so each is taken as a function of the values the source
    interpolates into it. *)
Record promptTexts := {
  DATA_AGENT_PROMPT : string;
  claudeUser1 : string → string;            (* prompt *)
  claudeUser2 : value → string → string;    (* researchData, prompt *)
  claudeUser3 : memo → string;              (* workingMemo *)
  claudeUser4 : memo → string;
  claudeUser5 : memo → string;
  claudeUser6 : memo → string;
  geminiText1 : string → string;
  geminiText2 : value → string → string;
  geminiText3 : memo → string;
  geminiText4 : memo → string;
  geminiText5 : memo → string;
  geminiText6 : memo → string;
  confirmationPrompt : string → string;     (* text *)
}.

(** [error instanceof Error ? error.message : String(error)] *)
Definition errorText (error : exn) : string :=
  match error with
  | JsError m => m
  | JsThrown v => js_String v
  end.

Section Orchestrators.

(** [JSON.parse], the host's. *)
Variable JSON_parse : string → result value.
Variable texts : promptTexts.
(** How the run's [n]-th backend call settles: the response it resolves
    to, or the error it rejects with. *)
Variable responses : nat → result value.

Definition generateWithClaude (n : nat) (o : GenerateOptions) : gen value :=
  ([Call n (ClaudeRequest (buildConfig o))], responses n).

(** [JSON.parse(cleanJson(extractText(resp.content)))] *)
Definition parseClaude (resp : value) : result value :=
  let! content := get resp "content" in
  let! text := extractText content in
  let! cleaned := cleanJson_call text in
  JSON_parse cleaned.

Definition runClaudeWorkflow (prompt : string) (attachments : list Attachment)
    (currentMemo : memo) (model : option string) : gen unit :=
  let model := default CLAUDE_SONNET model in
  let workingMemo := currentMemo in
  tryCatch
    ((* Phase 1: Data Collection *)
     yield (createEvent DataCollector active
              "Analyzing request and gathering intelligence (PDF Skill Active)...")
           None >>
     run! resp1 := generateWithClaude 1
       {| o_model := model;
          systemPrompt := DATA_AGENT_PROMPT texts;
          userPrompt := claudeUser1 texts prompt;
          o_attachments := Some attachments;
          useThinking := Some false;
          o_temperature := Some (2 # 10)%Q;
          skills := Some [SKILLS_PDF] |} in
     run! researchData := lift (parseClaude resp1) in
     run! workingMemo := lift (merge1 workingMemo researchData) in
     yield (createEvent DataCollector completed
              "Entity data and market intelligence analyzed.")
           (Some (pick ["companyOverview"; "marketAnalysis"] workingMemo)) >>
     (* Phase 2: Financial Modeling *)
     yield (createEvent FinancialModeler active
              "Engaging Extended Thinking & Excel Skill for model construction...")
           None >>
     run! resp2 := generateWithClaude 2
       {| o_model := model;
          systemPrompt := "You are a financial modeling expert. You must output strictly valid JSON matching the FinancialModel schema.";
          userPrompt := claudeUser2 texts researchData prompt;
          o_attachments := None;
          useThinking := Some true;
          o_temperature := None;
          skills := Some [SKILLS_EXCEL] |} in
     run! financialData := lift (parseClaude resp2) in
     run! workingMemo := lift (merge2 workingMemo financialData) in
     yield (createEvent FinancialModeler completed
              "Financial model built with probability-weighted scenarios.")
           (Some (pick ["financialModel"; "financialAnalysis"; "scenarios";
                        "capitalStructure"] workingMemo)) >>
     (* Phase 3: Risk Assessment *)
     yield (createEvent RiskAnalyst active
              "Deep-dive risk assessment and mitigation strategy...")
           None >>
     run! resp3 := generateWithClaude 3
       {| o_model := model;
          systemPrompt := "You are a senior risk analyst. Output strictly valid JSON.";
          userPrompt := claudeUser3 texts workingMemo;
          o_attachments := None;
          useThinking := Some true;
          o_temperature := None;
          skills := None |} in
     run! riskData := lift (parseClaude resp3) in
     run! workingMemo := lift (merge3 workingMemo riskData) in
     yield (createEvent RiskAnalyst completed "Risk matrix calibrated.")
           (Some (pick ["risks"] workingMemo)) >>
     (* Phase 4: Deal Structuring *)
     yield (createEvent StructuringExpert active
              "Structuring optimal credit facility...")
           None >>
     run! resp4 := generateWithClaude 4
       {| o_model := model;
          systemPrompt := "You are a deal structuring expert. Output strictly valid JSON.";
          userPrompt := claudeUser4 texts workingMemo;
          o_attachments := None;
          useThinking := Some true;
          o_temperature := None;
          skills := None |} in
     run! structData := lift (parseClaude resp4) in
     run! workingMemo := lift (merge4 workingMemo structData) in
     yield (createEvent StructuringExpert completed "Term sheet structured.")
           (Some (pick ["termSheet"; "capitalStructure"] workingMemo)) >>
     (* Phase 5: Covenant Design *)
     yield (createEvent CovenantDesigner active
              "Calibrating covenants against model headroom...")
           None >>
     run! resp5 := generateWithClaude 5
       {| o_model := model;
          systemPrompt := "You are a covenant lawyer. Output strictly valid JSON.";
          userPrompt := claudeUser5 texts workingMemo;
          o_attachments := None;
          useThinking := Some false;
          o_temperature := Some (1 # 10)%Q;
          skills := None |} in
     run! covData := lift (parseClaude resp5) in
     run! workingMemo := lift (merge5 workingMemo covData) in
     yield (createEvent CovenantDesigner completed "Covenants designed.")
           (Some (pick ["termSheet"] workingMemo)) >>
     (* Phase 6: Documentation & Assembly *)
     yield (createEvent Writer active
              "Synthesizing final Investment Memorandum (PPTX/DOCX Skills Active)...")
           None >>
     run! resp6 := generateWithClaude 6
       {| o_model := model;
          systemPrompt := "You are a credit investment writer. Output strictly valid JSON.";
          userPrompt := claudeUser6 texts workingMemo;
          o_attachments := None;
          useThinking := Some false;
          o_temperature := Some (4 # 10)%Q;
          skills := Some [SKILLS_PPT; SKILLS_DOCS] |} in
     run! writerData := lift (parseClaude resp6) in
     run! workingMemo := lift (merge6 workingMemo writerData) in
     yield (createEvent Writer completed
              "Final Investment Memo assembled successfully.")
           (Some workingMemo))
    (fun error =>
       yield (createEvent Orchestrator failed
                ("Workflow interrupted: " +:+ errorText error))
             None >>
       lift (Throw error)).

(** [ai.models.generateContent], the run's [n]-th call. *)
Definition generateContent (n : nat) (ps : list part) (search : bool)
  : gen value :=
  ([Call n (GeminiRequest {| g_model := "gemini-2.5-flash"; parts := ps;
                             googleSearch := search;
                             responseMimeType := "application/json" |})],
   responses n).

(** [JSON.parse(cleanJson(resp.text || '{}'))] *)
Definition parseGemini (resp : value) : result value :=
  let! t := get resp "text" in
  let! text := or_else t (Ok (VStr "{}")) in
  let! cleaned := cleanJson_call text in
  JSON_parse cleaned.

Definition runGeminiWorkflow (prompt : string) (attachments : list Attachment)
    (currentMemo : memo) : gen unit :=
  let workingMemo := currentMemo in
  tryCatch
    ((* Phase 1 *)
     yield (createEvent DataCollector active
              "Searching for filings (10-K/Q) and market data...")
           None >>
     run! dataAgentResp := generateContent 1
       ((InlineData <$> attachments) ++ [TextPart (geminiText1 texts prompt)])%list
       true in
     run! researchData := lift (parseGemini dataAgentResp) in
     run! workingMemo := lift (merge1 workingMemo researchData) in
     yield (createEvent DataCollector completed
              "Entity data and market intelligence gathered.")
           (Some (pick ["companyOverview"; "marketAnalysis"] workingMemo)) >>
     (* Phase 2 *)
     yield (createEvent FinancialModeler active
              "Constructing 3-statement model and return scenarios...")
           None >>
     run! financialAgentResp := generateContent 2
       [TextPart (geminiText2 texts researchData prompt)] false in
     run! financialData := lift (parseGemini financialAgentResp) in
     run! workingMemo := lift (merge2 workingMemo financialData) in
     yield (createEvent FinancialModeler completed
              "Financial model built with Base/Upside/Downside cases.")
           (Some (pick ["financialModel"; "financialAnalysis"; "scenarios";
                        "capitalStructure"] workingMemo)) >>
     (* Phase 3 *)
     yield (createEvent RiskAnalyst active
              "Identifying risks and calculating probability/impact...")
           None >>
     run! riskAgentResp := generateContent 3
       [TextPart (geminiText3 texts workingMemo)] false in
     run! riskData := lift (parseGemini riskAgentResp) in
     run! workingMemo := lift (merge3 workingMemo riskData) in
     yield (createEvent RiskAnalyst completed
              "Risk matrix and mitigants defined.")
           (Some (pick ["risks"] workingMemo)) >>
     (* Phase 4 *)
     yield (createEvent StructuringExpert active
              "Structuring facility, pricing, and security package...")
           None >>
     run! structAgentResp := generateContent 4
       [TextPart (geminiText4 texts workingMemo)] false in
     run! structData := lift (parseGemini structAgentResp) in
     run! workingMemo := lift (merge4 workingMemo structData) in
     yield (createEvent StructuringExpert completed
              "Term sheet core terms and pricing set.")
           (Some (pick ["termSheet"; "capitalStructure"] workingMemo)) >>
     (* Phase 5 *)
     yield (createEvent CovenantDesigner active
              "Calibrating maintenance and negative covenants...")
           None >>
     run! covAgentResp := generateContent 5
       [TextPart (geminiText5 texts workingMemo)] false in
     run! covData := lift (parseGemini covAgentResp) in
     run! workingMemo := lift (merge5 workingMemo covData) in
     yield (createEvent CovenantDesigner completed
              "Covenants calibrated with appropriate headroom.")
           (Some (pick ["termSheet"] workingMemo)) >>
     (* Phase 6 *)
     yield (createEvent Writer active
              "Synthesizing final Investment Memorandum...")
           None >>
     run! writerAgentResp := generateContent 6
       [TextPart (geminiText6 texts workingMemo)] false in
     run! writerData := lift (parseGemini writerAgentResp) in
     run! workingMemo := lift (merge6 workingMemo writerData) in
     yield (createEvent Writer completed
              "Final Investment Memo assembled successfully.")
           (Some workingMemo))
    (fun error =>
       yield (createEvent Orchestrator failed
                "Workflow interrupted due to error.")
             None >>
       lift (Throw error)).

End Orchestrators.

(** ** The caller: [handleSendMessage] of [App.tsx] *)

Module App.

Inductive MessageRole := USER | MODEL.
Inductive ModelProvider := gemini | claude.

(** A chat [Message] without its clock-derived [id]. *)
Record Message := {
  role : MessageRole;
  content : value;
  attachments : option (list Attachment);
  provider : ModelProvider;
}.

(** The component's state variables that the handler touches. *)
Record state := {
  messages : list Message;
  memoData : memo;
  workflowEvents : list WorkflowEvent;
  isGenerating : bool;
}.

Definition providerName (p : ModelProvider) : string :=
  match p with
  | gemini => "gemini"
  | claude => "claude"
  end.

Definition fallbackText : string :=
  "Analysis complete. The memorandum has been updated with the latest data from all agents.".

(** The text of the [catch] block's message. *)
Definition errorNotice (p : ModelProvider) : string :=
  "I encountered a critical error in the " +:+ providerName p +:+
  " agent workflow. Please check the console for details.".

(** The body of the [for await] loop, for one thing the generator does: a
    backend call inside the generator is invisible to the loop. *)
Definition onStep (st : state) (o : obs) : state :=
  match o with
  | Call _ _ => st
  | Emit s =>
      {| messages := messages st;
         memoData := match partialData s with
                     | Some pd => pd ∪ memoData st   (* {...prev, ...pd} *)
                     | None => memoData st
                     end;
         workflowEvents := workflowEvents st ++ [event s];
         isGenerating := isGenerating st |}
  end.

Definition addMessage (m : Message) (st : state) : state :=
  {| messages := messages st ++ [m];
     memoData := memoData st;
     workflowEvents := workflowEvents st;
     isGenerating := isGenerating st |}.

Section Handler.

Variable JSON_parse : string → result value.
Variable texts : promptTexts.
Variable responses : nat → result value.

(** [streamClaudeChatResponse]: the run's seventh backend call. *)
Definition streamClaudeChatResponse (newMessage : string)
    (model : option string) : gen value :=
  let model := default CLAUDE_SONNET model in
  run! resp := generateWithClaude responses 7
    {| o_model := model;
       systemPrompt := "You are the CreditAlpha Orchestrator. Summarize the actions taken by the agents briefly.";
       userPrompt := newMessage;
       o_attachments := None;
       useThinking := Some false;
       o_temperature := None;
       skills := None |} in
  run! content := lift (get resp "content") in
  lift (extractText content).

(** [streamChatResponse] of the Gemini service. *)
Definition streamChatResponse (newMessage : string) : gen value :=
  run! result := ([Call 7 (GeminiChat
    "You are the CreditAlpha Orchestrator. Summarize the actions taken by the agents briefly and confirm the analysis is ready for review."
    newMessage)], responses 7) in
  lift (get result "text").

(** [handleSendMessage]: what the handler did (the generator's steps and the
    backend calls) and the state it leaves. *)
Definition handleSendMessage (prov : ModelProvider) (claudeModel : string)
    (text : string) (atts : list Attachment) (st : state)
  : list obs * state :=
  let userMsg := {| role := USER; content := VStr text;
                    attachments := Some atts; provider := prov |} in
  let st := {| messages := messages st ++ [userMsg];
               memoData := memoData st;
               workflowEvents := [];
               isGenerating := true |} in
  let '(trace, outcome) :=
    tryCatch
      (let workflow :=
         match prov with
         | claude => runClaudeWorkflow JSON_parse texts responses text atts
                       (memoData st) (Some claudeModel)
         | gemini => runGeminiWorkflow JSON_parse texts responses text atts
                       (memoData st)
         end in
       workflow >>
       (* 3. Final chat confirmation *)
       let prompt := confirmationPrompt texts text in
       run! responseText :=
         match prov with
         | claude => streamClaudeChatResponse prompt (Some claudeModel)
         | gemini => streamChatResponse prompt
         end in
       run! shown := lift (or_else responseText (Ok (VStr fallbackText))) in
       lift (Ok {| role := MODEL; content := shown;
                   attachments := None; provider := prov |}))
      (fun _ =>
         lift (Ok {| role := MODEL; content := VStr (errorNotice prov);
                     attachments := None; provider := prov |})) in
  let st := foldl onStep st trace in
  let st := match outcome with
            | Ok m => addMessage m st
            | Throw _ => st
            end in
  (trace,
   {| messages := messages st;
      memoData := memoData st;
      workflowEvents := workflowEvents st;
      isGenerating := false |}).

End Handler.

End App.

(** ** Auxiliary definitions for the statements *)

(** An object literal. *)
Definition obj (l : list (string * value)) : value := VObj (list_to_map l).

Definition allWs (s : string) : bool :=
  forallb is_ws (list_ascii_of_string s).

(** No white space at either end. *)
Definition trimmed (s : string) : Prop := trimStart s = s ∧ trimEnd s = s.

Definition dq : string := String (ascii_of_nat 34) EmptyString.

(** The fenced text of the specification's scenario and the payload inside
    it: an object with the one key [companyOverview]. *)
Definition scenarioPayload : string :=
  "{" +:+ dq +:+ "companyOverview" +:+ dq +:+ ":" +:+ dq +:+ "X" +:+ dq +:+ "}".


(** A segment that [extractText] passes over without raising. *)
Definition otherSegment (b : value) : Prop :=
  is_nullish b = false ∧ is_text_tag (get_opt b "type") = false.



(** The fields that phase [k] merges as [patch.X || workingMemo.X]. *)
Definition fallbackFields (k : nat) : list string :=
  match k with
  | 1 => ["companyOverview"; "marketAnalysis"]
  | 2 => ["financialModel"; "financialAnalysis"; "scenarios";
          "capitalStructure"]
  | 3 => ["risks"]
  | 4 => ["capitalStructure"]
  | 6 => ["recommendation"; "executiveSummary"; "investmentThesis";
          "investmentHighlights"; "businessAnalysis"; "downsideAnalysis"]
  | _ => []
  end.

(** The top-level fields named in phase [k]'s object literal. *)
Definition writtenFields (k : nat) : list string :=
  match k with
  | 4 | 5 => "termSheet" :: fallbackFields k
  | 6 => "title" :: "termSheet" :: "status" :: fallbackFields k
  | _ => fallbackFields k
  end.

Definition covenantFields : list string :=
  ["maintenanceCovenants"; "negativeCovenants"; "conditionsPrecedent"].

(** Phase [k]'s merge can change the top-level field [X]. *)
Definition writes (k : nat) (X : string) : Prop :=
  ∃ (D : memo) (P : value) (D' : memo),
    mergeOf k D P = Ok D' ∧ D' !! X ≠ D !! X.

(** [patch.X || workingMemo.X], when the patch is not [null]. *)
Definition choose (P : value) (D : memo) (X : string) : value :=
  if truthy (get_opt P X) then get_opt P X else rd D X.




(** [covData.termSheet?.X || workingMemo.termSheet.X], when it does not
    raise. *)
Definition covChoose (P : value) (D : memo) (X : string) : value :=
  if truthy (get_opt (get_opt P "termSheet") X)
  then get_opt (get_opt P "termSheet") X
  else get_opt (rd D "termSheet") X.

(** The title phase 6 sets, when it does not raise. *)
Definition titleChoose (P : value) (D : memo) : value :=
  if truthy (get_opt P "title") then get_opt P "title"
  else VStr ("Investment Memo: "
             +:+ js_String (get_opt (rd D "termSheet") "borrower")).

(** A memo under review and some patches, for the examples. *)
Definition sampleMemo : memo :=
  list_to_map
    [("title", VStr "Acme refinancing");
     ("status", VStr "Review");
     ("companyOverview", VStr "Acme makes anvils.");
     ("scenarios", VArr [obj [("caseName", VStr "Base Case")]]);
     ("capitalStructure", VArr [obj [("instrument", VStr "Senior Term Loan")]]);
     ("termSheet", obj [("borrower", VStr "Acme Corp");
                        ("maintenanceCovenants", VArr []);
                        ("negativeCovenants", VArr []);
                        ("conditionsPrecedent", VArr [])])].

Definition emptyPatch : value := obj [].
Definition emptyScenariosPatch : value := obj [("scenarios", VArr [])].
Definition blankOverviewPatch : value := obj [("companyOverview", VStr " ")].
Definition borrowerPatch : value :=
  obj [("termSheet", obj [("borrower", VStr "Bolt Ltd")])].

(** The value of field [X] after a merge. *)
Definition fieldAfter (r : result memo) (X : string) : result value :=
  let! d := r in Ok (rd d X).

(** The routing of one attachment, read off the three branches of the loop
    in [generateWithClaude]: the binary block it contributes, if any, and
    the note it appends to the text. *)
Definition isPdf (att : Attachment) : bool :=
  String.eqb (mimeType att) "application/pdf".

Definition isImage (att : Attachment) : bool :=
  startsWith "image/" (mimeType att).

Definition binaryBlock (att : Attachment) : option block :=
  if isPdf att then Some (DocumentBlock "application/pdf" (data att))
  else if isImage att then Some (ImageBlock (mimeType att) (data att))
  else None.

Definition excerpt (att : Attachment) : string :=
  String.substring 0 50 (data att).

Definition note (att : Attachment) : string :=
  nl +:+ nl +:+
  (if isPdf att then "[Attached PDF: " +:+ name att +:+ "]"
   else if isImage att then "[Attached Image: " +:+ name att +:+ "]"
   else "[Attachment: " +:+ name att +:+ " (" +:+ mimeType att +:+ ")]"
        +:+ nl +:+ "(Base64 Data: " +:+ excerpt att +:+ "...)").

Definition notes (atts : list Attachment) : string :=
  foldr (fun att rest => note att +:+ rest) EmptyString atts.

Definition isBinary (b : block) : bool :=
  match b with
  | TextBlock _ => false
  | _ => true
  end.

Definition contains (sub s : string) : Prop :=
  ∃ pre post, s = pre +:+ sub +:+ post.

(** The request of a run's [n]-th backend call, if the run got that far. *)
Definition requestOf (n : nat) (trace : list obs) : option request :=
  head (omap (fun o => match o with
                       | Call m r => if Nat.eqb m n then Some r else None
                       | Emit _ => None
                       end) trace).

Definition csvAttachment : Attachment :=
  {| name := "ledger.csv"; mimeType := "text/csv"; data := "YSxiLGMKMSwyLDM=" |}.
Definition pdfAttachment : Attachment :=
  {| name := "10-K.pdf"; mimeType := "application/pdf"; data := "JVBERi0xLjc=" |}.

(** Stand-ins for the examples: [JSON.parse] on the two texts the examples
    meet (it rejects every other text), prompt texts, and backend replies. *)
Definition tableParse (s : string) : result value :=
  if String.eqb s "{}" then Ok (obj [])
  else if String.eqb s scenarioPayload
       then Ok (obj [("companyOverview", VStr "X")])
       else Throw (JsError "Unexpected token in JSON").

Definition sampleTexts : promptTexts :=
  {| DATA_AGENT_PROMPT := "You are an expert Data Collection Agent.";
     claudeUser1 := fun prompt => "User Request: " +:+ prompt;
     claudeUser2 := fun _ prompt => "User Request: " +:+ prompt;
     claudeUser3 := fun _ => "Assess the risks.";
     claudeUser4 := fun _ => "Structure the facility.";
     claudeUser5 := fun _ => "Design the covenants.";
     claudeUser6 := fun _ => "Write the memorandum.";
     geminiText1 := fun prompt => "User Request: " +:+ prompt;
     geminiText2 := fun _ prompt => "User Request: " +:+ prompt;
     geminiText3 := fun _ => "Assess the risks.";
     geminiText4 := fun _ => "Structure the facility.";
     geminiText5 := fun _ => "Design the covenants.";
     geminiText6 := fun _ => "Write the memorandum.";
     confirmationPrompt := fun text => "The user asked: " +:+ text |}.

Definition claudeReply (text : string) : result value :=
  Ok (obj [("content", VArr [obj [("type", VStr "text"); ("text", VStr text)]])]).

Definition geminiReply (text : string) : result value :=
  Ok (obj [("text", VStr text)]).

(** ** What a run shows *)

Definition eventsOf (trace : list obs) : list WorkflowEvent :=
  omap (fun o => match o with
                 | Emit s => Some (event s)
                 | Call _ _ => None
                 end) trace.

Definition callsOf (trace : list obs) : list nat :=
  omap (fun o => match o with
                 | Call n _ => Some n
                 | Emit _ => None
                 end) trace.

Definition tag (e : WorkflowEvent) : AgentType * EventStatus :=
  (agent e, status e).

Definition phaseAgent (k : nat) : AgentType :=
  match k with
  | 1 => DataCollector
  | 2 => FinancialModeler
  | 3 => RiskAnalyst
  | 4 => StructuringExpert
  | 5 => CovenantDesigner
  | 6 => Writer
  | _ => Orchestrator
  end.

(** [active] then [completed], for each of the phases 1 to [k]. *)
Fixpoint completedLog (k : nat) : list (AgentType * EventStatus) :=
  match k with
  | 0 => []
  | S j => (completedLog j ++ [(phaseAgent k, active); (phaseAgent k, completed)])%list
  end.

(** The document the caller holds after it has consumed [trace], having
    started the run on [currentMemo]. *)
Definition observe (currentMemo : memo) (trace : list obs) : memo :=
  App.memoData
    (foldl App.onStep
       {| App.messages := []; App.memoData := currentMemo;
          App.workflowEvents := []; App.isGenerating := true |}
       trace).

(** The state after the merges of phases 1 to [k], given what each phase's
    call and parse produced. *)
Fixpoint mergedThrough (patch : nat → result value) (currentMemo : memo)
    (k : nat) : result memo :=
  match k with
  | 0 => Ok currentMemo
  | S j =>
      let! workingMemo := mergedThrough patch currentMemo j in
      let! p := patch k in
      mergeOf k workingMemo p
  end.

(** Phase [n]'s parsed output in each orchestrator. *)
Definition claudePatch (JSON_parse : string → result value)
    (responses : nat → result value) (n : nat) : result value :=
  let! resp := responses n in parseClaude JSON_parse resp.

Definition geminiPatch (JSON_parse : string → result value)
    (responses : nat → result value) (n : nat) : result value :=
  let! resp := responses n in parseGemini JSON_parse resp.

(** The text of the last chat message. *)
Definition lastContent (st : App.state) : option value :=
  App.content <$> last (App.messages st).

(** The application with the sample memo on its canvas. *)
Definition sampleState : App.state :=
  {| App.messages := []; App.memoData := sampleMemo;
     App.workflowEvents := []; App.isGenerating := false |}.


(** A backend that rejects every call. *)
Definition backendDown (n : nat) : result value :=
  Throw (JsError "429 quota exceeded").

(** ** Further definitions for the statements *)

(** [s.endsWith(suffix)] *)
Definition endsWith (suffix s : string) : Prop := ∃ p, s = p +:+ suffix.


(** What a run did, without the payloads: the events by agent and status,
    the backend calls by number. *)
Inductive mark :=
| Event (a : AgentType) (st : EventStatus)
| Backend (n : nat).

Definition marksOf (trace : list obs) : list mark :=
  (fun o => match o with
            | Emit s => Event (agent (event s)) (status (event s))
            | Call n _ => Backend n
            end) <$> trace.

(** The steps a run yielded. *)
Definition stepsOf (trace : list obs) : list step :=
  omap (fun o => match o with
                 | Emit s => Some s
                 | Call _ _ => None
                 end) trace.

(** The options of the Claude orchestrator's [n]-th call, read off its six
    call sites; the prompts are left open. *)
Definition claudeOptions (n : nat) (model system user : string)
    (atts : list Attachment) : GenerateOptions :=
  {| o_model := model;
     systemPrompt := system;
     userPrompt := user;
     o_attachments := match n with 1 => Some atts | _ => None end;
     useThinking := Some match n with 2 | 3 | 4 => true | _ => false end;
     o_temperature := match n with
                      | 1 => Some (2 # 10)%Q
                      | 5 => Some (1 # 10)%Q
                      | 6 => Some (4 # 10)%Q
                      | _ => None
                      end;
     skills := match n with
               | 1 => Some [SKILLS_PDF]
               | 2 => Some [SKILLS_EXCEL]
               | 6 => Some [SKILLS_PPT; SKILLS_DOCS]
               | _ => None
               end |}.

(** The workflow that [handleSendMessage] starts for a provider, and that
    provider's parsed output of phase [n]. *)
Definition workflowOf (prov : App.ModelProvider)
    (JSON_parse : string → result value) (texts : promptTexts)
    (responses : nat → result value) (text : string)
    (atts : list Attachment) (currentMemo : memo) (model : option string)
  : gen unit :=
  match prov with
  | App.claude =>
      runClaudeWorkflow JSON_parse texts responses text atts currentMemo model
  | App.gemini =>
      runGeminiWorkflow JSON_parse texts responses text atts currentMemo
  end.

Definition patchOf (prov : App.ModelProvider)
    (JSON_parse : string → result value) (responses : nat → result value)
  : nat → result value :=
  match prov with
  | App.claude => claudePatch JSON_parse responses
  | App.gemini => geminiPatch JSON_parse responses
  end.

(** ** The chat handler *)

Definition userMessage (prov : App.ModelProvider) (text : string)
    (atts : list Attachment) : App.Message :=
  {| App.role := App.USER; App.content := VStr text;
     App.attachments := Some atts; App.provider := prov |}.

Definition replyMessage (prov : App.ModelProvider) (shown : value)
  : App.Message :=
  {| App.role := App.MODEL; App.content := shown;
     App.attachments := None; App.provider := prov |}.

(** The confirmation call that [handleSendMessage] makes for a provider. *)
Definition confirmationOf (prov : App.ModelProvider)
    (texts : promptTexts) (responses : nat → result value)
    (claudeModel text : string) : gen value :=
  match prov with
  | App.claude =>
      App.streamClaudeChatResponse responses (confirmationPrompt texts text)
        (Some claudeModel)
  | App.gemini =>
      App.streamChatResponse responses (confirmationPrompt texts text)
  end.

(** What the chat shows for an outcome of the confirmation call. *)
Definition shownFor (prov : App.ModelProvider) (reply : result value) : value :=
  match reply with
  | Ok v => if truthy v then v else VStr App.fallbackText
  | Throw _ => VStr (App.errorNotice prov)
  end.

(** The state [handleSendMessage] leaves, given what the run did and the
    text of the reply. *)
Definition settled (prov : App.ModelProvider) (text : string)
    (atts : list Attachment) (st : App.state) (trace : list obs)
    (shown : value) : App.state :=
  {| App.messages := (App.messages st
                      ++ [userMessage prov text atts;
                          replyMessage prov shown])%list;
     App.memoData := observe (App.memoData st) trace;
     App.workflowEvents := eventsOf trace;
     App.isGenerating := false |}.

(** ** The booked loans *)

Section Loans.

(** A [Loan] is read only through its [id]. *)
Variable Loan : Type.
Variable loan_id : Loan → string.

(** [handleLoanUpdate]: the new value of [bookedLoans]. *)
Definition handleLoanUpdate (updatedLoan : Loan) (prev : list Loan)
  : list Loan :=
  (fun l => if String.eqb (loan_id l) (loan_id updatedLoan)
            then updatedLoan else l) <$> prev.

End Loans.

(** ** Samples *)

Definition mezzaninePatch : value :=
  obj [("capitalStructure", VArr [obj [("instrument", VStr "Mezzanine")]])].

(** A backend that answers every call with an empty object. *)
Definition sampleReplies (prov : App.ModelProvider) (n : nat) : result value :=
  match prov with
  | App.claude => claudeReply "{}"
  | App.gemini => geminiReply "{}"
  end.

(** A backend that answers the first two calls and rejects the third. *)
Definition thirdCallDown (n : nat) : result value :=
  if Nat.ltb n 3 then claudeReply "{}" else Throw (JsError "Overloaded").

(** A confirmation whose content holds a tool result and no text. *)
Definition confirmationWithoutText (n : nat) : result value :=
  if Nat.eqb n 7
  then Ok (obj [("content", VArr [obj [("type", VStr "tool_use")]])])
  else claudeReply "{}".

(** The sample request, run on a backend. *)
Definition sampleRun (prov : App.ModelProvider)
    (responses : nat → result value) : gen unit :=
  workflowOf prov tableParse sampleTexts responses "Analyze Acme Corp"
    [pdfAttachment; csvAttachment] sampleMemo (Some CLAUDE_SONNET).

(** * Properties *)

(** ** White space and fences *)

#[local] Arguments String.append !_ _ / : simpl nomatch.

Lemma trimStart_allWs w s : allWs w = true → trimStart (w +:+ s) = trimStart s.
Proof.
  unfold allWs. induction w as [|c w IH]; simpl; [done|].
  intros [Hc Hw]%andb_true_iff. rewrite Hc. auto.
Qed.

Lemma trimStart_keeps s t :
  trimStart s ≠ EmptyString → trimStart (s +:+ t) = trimStart s +:+ t.
Proof.
  induction s as [|c s IH]; simpl; [done|].
  destruct (is_ws c); [auto | done].
Qed.


Lemma trimEnd_tail c s : trimEnd (String c s) = String c s → trimEnd s = s.
Proof.
  simpl. destruct (trimEnd s) eqn:Hs.
  - destruct (is_ws c); [done|]. by intros [= <-].
  - by intros [= <-].
Qed.

Lemma trimEnd_allWs s w : allWs w = true → trimEnd (s +:+ w) = trimEnd s.
Proof.
  intros Hw. assert (Hnil : trimEnd w = EmptyString).
  { revert Hw. unfold allWs. induction w as [|c w IH]; simpl; [done|].
    intros [Hc Hw]%andb_true_iff. by rewrite IH, Hc. }
  induction s as [|c s IH]; simpl; [done|]. by rewrite IH.
Qed.

Lemma trimEnd_app s t :
  trimEnd t = t → t ≠ EmptyString → trimEnd (s +:+ t) = s +:+ t.
Proof.
  intros Ht Hne. induction s as [|c s IH]; simpl; [done|].
  rewrite IH. destruct (s +:+ t) eqn:Hst; [|done].
  destruct s; simpl in Hst; [by subst|done].
Qed.

Lemma length_app s t :
  String.length (s +:+ t) = String.length s + String.length t.
Proof. induction s; simpl; auto. Qed.

Lemma replaceClose_unfold s :
  replaceClose s =
  if String.eqb (trimStart s) fence then EmptyString
  else match s with
       | EmptyString => EmptyString
       | String c r => String c (replaceClose r)
       end.
Proof. by destruct s. Qed.


Lemma append_assoc a b c : (a +:+ b) +:+ c = a +:+ b +:+ c.
Proof. induction a; simpl; congruence. Qed.

Lemma trim_surrounded w0 s w3 :
  allWs w0 = true → allWs w3 = true → trimmed s → s ≠ EmptyString →
  trim (w0 +:+ s +:+ w3) = s.
Proof.
  intros H0 H3 [Hs He] Hne. unfold trim.
  rewrite trimStart_allWs by done.
  rewrite trimStart_keeps by (by rewrite Hs).
  by rewrite Hs, trimEnd_allWs.
Qed.



Lemma startsWith_app p s : startsWith p (p +:+ s) = true.
Proof.
  unfold startsWith. induction p as [|c p IH]; simpl; [by destruct s|].
  by destruct (ascii_dec c c).
Qed.

Lemma replaceOpen_app p s : replaceOpen p (p +:+ s) = trimStart s.
Proof.
  unfold replaceOpen. rewrite startsWith_app. f_equal.
  induction p; simpl; auto.
Qed.





(** ** The text that [extractText] selects *)

Lemma find_text_skip pre rest :
  Forall otherSegment pre → find_text (pre ++ rest)%list = find_text rest.
Proof.
  induction 1 as [|b pre [Hn Ht] _ IH]; simpl; [done|].
  unfold get. unfold get_opt in Ht. rewrite Hn in *. simpl. by rewrite Ht.
Qed.



Lemma extractText_default l :
  Forall otherSegment l → extractText (VArr l) = Ok (VStr "{}").
Proof.
  intros Hl. simpl. rewrite <-(app_nil_r l), find_text_skip by done. done.
Qed.


(** ** C4: the output extractor *)




(** ** The merges, inverted *)

Lemma get_ok (v : value) (k : string) :
  is_nullish v = false → get v k = Ok (get_opt v k).
Proof. intros H. unfold get, get_opt. by rewrite H. Qed.

Lemma get_inv (v : value) (k : string) (w : value) :
  get v k = Ok w → is_nullish v = false ∧ w = get_opt v k.
Proof. unfold get, get_opt. destruct (is_nullish v); [done|]. by intros [= <-]. Qed.

Lemma fallback_ok (P : value) (D : memo) (X : string) :
  is_nullish P = false → fallback P D X = Ok (choose P D X).
Proof.
  intros H. unfold fallback, choose. rewrite get_ok by done. simpl.
  unfold or_else. by destruct (truthy _).
Qed.

Lemma fallback_nullish (P : value) (D : memo) (X : string) :
  is_nullish P = true → fallback P D X = Throw (cannot_read P X).
Proof. intros H. unfold fallback, get. by rewrite H. Qed.

Lemma merge_needs_patch (k : nat) (D D' : memo) (P : value) :
  (1 ≤ k ≤ 6)%nat → mergeOf k D P = Ok D' → is_nullish P = false.
Proof.
  intros Hk H. destruct (is_nullish P) eqn:HP; [exfalso|done].
  destruct k as [|[|[|[|[|[|[|k]]]]]]]; try lia; simpl in H;
    unfold merge1, merge2, merge3, merge4, merge5, merge6, covFallback,
      titleOf in H;
    rewrite ?fallback_nullish in H by done; simpl in H; try done;
    unfold get in H; rewrite HP in H; done.
Qed.

Lemma merge1_eq (D : memo) (P : value) :
  is_nullish P = false →
  merge1 D P = Ok (<["marketAnalysis" := choose P D "marketAnalysis"]>
                   (<["companyOverview" := choose P D "companyOverview"]> D)).
Proof. intros H. unfold merge1. by rewrite !fallback_ok. Qed.

Lemma merge2_eq (D : memo) (P : value) :
  is_nullish P = false →
  merge2 D P = Ok (<["capitalStructure" := choose P D "capitalStructure"]>
                   (<["scenarios" := choose P D "scenarios"]>
                    (<["financialAnalysis" := choose P D "financialAnalysis"]>
                     (<["financialModel" := choose P D "financialModel"]> D)))).
Proof. intros H. unfold merge2. by rewrite !fallback_ok. Qed.

Lemma merge3_eq (D : memo) (P : value) :
  is_nullish P = false →
  merge3 D P = Ok (<["risks" := choose P D "risks"]> D).
Proof. intros H. unfold merge3. by rewrite !fallback_ok. Qed.

Lemma merge4_eq (D : memo) (P : value) :
  is_nullish P = false →
  merge4 D P =
  Ok (<["capitalStructure" := choose P D "capitalStructure"]>
      (<["termSheet" :=
           VObj (spread2 (rd D "termSheet") (get_opt P "termSheet"))]> D)).
Proof. intros H. unfold merge4. by rewrite get_ok, !fallback_ok. Qed.

Lemma covFallback_inv (P : value) (D : memo) (X : string) (v : value) :
  covFallback P D X = Ok v → v = covChoose P D X.
Proof.
  unfold covFallback, covChoose, or_else.
  destruct (get P "termSheet") as [ts|] eqn:E; [|done].
  apply get_inv in E as [_ ->]. simpl.
  destruct (truthy _); [by intros [= <-]|].
  by intros [_ ->]%get_inv.
Qed.


Lemma merge5_inv (D D' : memo) (P : value) :
  merge5 D P = Ok D' →
  D' = <["termSheet" :=
           VObj (<["conditionsPrecedent" := covChoose P D "conditionsPrecedent"]>
                 (<["negativeCovenants" := covChoose P D "negativeCovenants"]>
                  (<["maintenanceCovenants" :=
                       covChoose P D "maintenanceCovenants"]>
                   (ownProps (rd D "termSheet")))))]> D.
Proof.
  unfold merge5.
  destruct (covFallback P D "maintenanceCovenants") eqn:E1; [|done].
  destruct (covFallback P D "negativeCovenants") eqn:E2; [|done].
  destruct (covFallback P D "conditionsPrecedent") eqn:E3; [|done].
  apply covFallback_inv in E1 as ->. apply covFallback_inv in E2 as ->.
  apply covFallback_inv in E3 as ->. by intros [= <-].
Qed.

Lemma titleOf_inv (D : memo) (P t : value) :
  titleOf D P = Ok t → t = titleChoose P D.
Proof.
  unfold titleOf, titleChoose, or_else.
  destruct (get P "title") as [p|] eqn:E; [|done].
  apply get_inv in E as [_ ->]. simpl.
  destruct (truthy _); [by intros [= <-]|].
  destruct (get (rd D "termSheet") "borrower") as [b|] eqn:Eb; [|done].
  apply get_inv in Eb as [_ ->]. by intros [= <-].
Qed.


Lemma merge6_inv (D D' : memo) (P : value) :
  merge6 D P = Ok D' →
  D' = <["status" := VStr "Draft"]>
       (<["termSheet" :=
            VObj (spread2 (rd D "termSheet") (get_opt P "termSheet"))]>
        (<["downsideAnalysis" := choose P D "downsideAnalysis"]>
         (<["businessAnalysis" := choose P D "businessAnalysis"]>
          (<["investmentHighlights" := choose P D "investmentHighlights"]>
           (<["investmentThesis" := choose P D "investmentThesis"]>
            (<["executiveSummary" := choose P D "executiveSummary"]>
             (<["recommendation" := choose P D "recommendation"]>
              (<["title" := titleChoose P D]> D)))))))).
Proof.
  intros H. pose proof (merge_needs_patch 6 D D' P ltac:(lia) H) as HP.
  unfold merge6 in H.
  destruct (titleOf D P) as [t|] eqn:Et; [|done].
  apply titleOf_inv in Et as ->.
  rewrite !fallback_ok, get_ok in H by done. simpl in H. by injection H as <-.
Qed.

(** ** C1: the per-field rule *)

Ltac in_list H :=
  repeat (apply elem_of_cons in H as [->|H]); [..|by apply elem_of_nil in H].

Ltac not_in_list H :=
  repeat (apply not_elem_of_cons in H as [? H]).

Ltac invert_merge k H :=
  let HP := fresh "HP" in
  match k with
  | 5 => apply merge5_inv in H
  | 6 => apply merge6_inv in H
  | _ =>
      pose proof (merge_needs_patch k _ _ _ ltac:(lia) H) as HP;
      simpl in H;
      first [rewrite merge1_eq in H by done | rewrite merge2_eq in H by done
            | rewrite merge3_eq in H by done | rewrite merge4_eq in H by done];
      injection H as H; symmetry in H
  end.

Lemma merge_fallback_fields (k : nat) (D D' : memo) (P : value) (X : string) :
  mergeOf k D P = Ok D' → X ∈ fallbackFields k → rd D' X = choose P D X.
Proof.
  intros H HX.
  destruct k as [|[|[|[|[|[|[|k]]]]]]]; simpl in HX;
    try (by apply elem_of_nil in HX).
  - invert_merge 1 H. subst D'. in_list HX; unfold rd; by simplify_map_eq.
  - invert_merge 2 H. subst D'. in_list HX; unfold rd; by simplify_map_eq.
  - invert_merge 3 H. subst D'. in_list HX; unfold rd; by simplify_map_eq.
  - invert_merge 4 H. subst D'. in_list HX; unfold rd; by simplify_map_eq.
  - invert_merge 6 H. subst D'. in_list HX; unfold rd; by simplify_map_eq.
Qed.

Lemma merge_other_fields (k : nat) (D D' : memo) (P : value) (X : string) :
  mergeOf k D P = Ok D' → X ∉ writtenFields k → D' !! X = D !! X.
Proof.
  intros H HX.
  destruct k as [|[|[|[|[|[|[|k]]]]]]]; simpl in HX;
    try (by injection H as <-).
  - invert_merge 1 H. subst D'. not_in_list HX. by simplify_map_eq.
  - invert_merge 2 H. subst D'. not_in_list HX. by simplify_map_eq.
  - invert_merge 3 H. subst D'. not_in_list HX. by simplify_map_eq.
  - invert_merge 4 H. subst D'. not_in_list HX. by simplify_map_eq.
  - invert_merge 5 H. subst D'. not_in_list HX. by simplify_map_eq.
  - invert_merge 6 H. subst D'. not_in_list HX. by simplify_map_eq.
Qed.

(** C1, as amended. After phase [k]'s merge of patch [P] into [D]: a field
    merged with [||] holds the patch's value when that value is truthy (any
    array, even an empty one, and any non-empty string, even a blank one)
    and the document's value otherwise; the term sheet of phases 4 and 6 is
    the document's term sheet overridden property by property by the
    patch's; phase 5 sets the three covenant lists of the term sheet by the
    same [||] rule and keeps its other properties; phase 6 sets the status
    to [Draft] and the title to the patch's title or else to a title made
    from the borrower; every field the phase does not name is unchanged. *)
Theorem merge_rule (k : nat) (D D' : memo) (P : value)
    (H : mergeOf k D P = Ok D') :
  (∀ X, X ∈ fallbackFields k →
        rd D' X = if truthy (get_opt P X) then get_opt P X else rd D X) ∧
  (∀ X, X ∉ writtenFields k → D' !! X = D !! X) ∧
  (k = 4 ∨ k = 6 →
     ∃ ts, rd D' "termSheet" = VObj ts ∧
       ∀ f, ts !! f = match ownProps (get_opt P "termSheet") !! f with
                      | Some v => Some v
                      | None => ownProps (rd D "termSheet") !! f
                      end) ∧
  (k = 5 →
     ∃ ts, rd D' "termSheet" = VObj ts ∧
       (∀ f, f ∈ covenantFields →
             rd ts f = if truthy (get_opt (get_opt P "termSheet") f)
                       then get_opt (get_opt P "termSheet") f
                       else get_opt (rd D "termSheet") f) ∧
       (∀ f, f ∉ covenantFields → ts !! f = ownProps (rd D "termSheet") !! f)) ∧
  (k = 6 →
     rd D' "status" = VStr "Draft" ∧
     rd D' "title" =
       if truthy (get_opt P "title") then get_opt P "title"
       else VStr ("Investment Memo: "
                  +:+ js_String (get_opt (rd D "termSheet") "borrower"))).
Proof.
  split; [intros X HX; exact (merge_fallback_fields k D D' P X H HX)|].
  split; [intros X HX; exact (merge_other_fields k D D' P X H HX)|].
  assert (Hspread : ∀ a b f,
    spread2 a b !! f = match ownProps b !! f with
                       | Some v => Some v
                       | None => ownProps a !! f
                       end).
  { intros a b f. unfold spread2. rewrite lookup_union.
    by destruct (ownProps b !! f), (ownProps a !! f). }
  split; [|split].
  - intros [-> | ->].
    + invert_merge 4 H. subst D'. eexists. split; [|apply Hspread].
      unfold rd. by simplify_map_eq.
    + invert_merge 6 H. subst D'. eexists. split; [|apply Hspread].
      unfold rd. by simplify_map_eq.
  - intros ->. invert_merge 5 H. subst D'. eexists. split; [|split].
    + unfold rd. by simplify_map_eq.
    + intros f Hf. unfold covenantFields in Hf.
      in_list Hf; unfold rd; by simplify_map_eq.
    + intros f Hf. unfold covenantFields in Hf. not_in_list Hf.
      by simplify_map_eq.
  - intros ->. invert_merge 6 H. subst D'. split; unfold rd; by simplify_map_eq.
Qed.

Lemma merge_rule_witness :
  ∃ D', mergeOf 2 sampleMemo emptyScenariosPatch = Ok D' ∧
        ∀ X, X ∉ writtenFields 2 → D' !! X = sampleMemo !! X.
Proof.
  eexists. split; [reflexivity|].
  apply (merge_rule 2 sampleMemo _ emptyScenariosPatch). reflexivity.
Defined.

(** C1, counterexample. A patch whose [scenarios] is an empty list empties
    the document's scenarios; a blank [companyOverview] replaces the
    document's; and an empty patch in phase 6 replaces the title by a made
    one and the status by [Draft]. *)
Lemma merge_rule_counterexample :
  rd sampleMemo "scenarios" = VArr [obj [("caseName", VStr "Base Case")]]
  ∧ fieldAfter (mergeOf 2 sampleMemo emptyScenariosPatch) "scenarios"
    = Ok (VArr [])
  ∧ rd sampleMemo "companyOverview" = VStr "Acme makes anvils."
  ∧ fieldAfter (mergeOf 1 sampleMemo blankOverviewPatch) "companyOverview"
    = Ok (VStr " ")
  ∧ rd sampleMemo "title" = VStr "Acme refinancing"
  ∧ fieldAfter (mergeOf 6 sampleMemo emptyPatch) "title"
    = Ok (VStr "Investment Memo: Acme Corp")
  ∧ rd sampleMemo "status" = VStr "Review"
  ∧ fieldAfter (mergeOf 6 sampleMemo emptyPatch) "status" = Ok (VStr "Draft").
Proof. repeat split; by vm_compute. Qed.

(** ** C5: merging twice, merging nothing *)



Lemma get_opt_obj (m : memo) (X : string) : get_opt (VObj m) X = rd m X.
Proof. done. Qed.


















(** ** C6: which phase writes which field *)

Lemma writes_only (k : nat) (X : string) : writes k X → X ∈ writtenFields k.
Proof.
  intros (D & P & D' & H & Hne).
  destruct (decide (X ∈ writtenFields k)) as [|Hn]; [done|].
  destruct Hne. by eapply merge_other_fields.
Qed.

Lemma writes_2_capitalStructure : writes 2 "capitalStructure".
Proof.
  exists ∅, (obj [("capitalStructure", VArr [])]). eexists.
  split; [reflexivity|]. by vm_compute.
Qed.

Lemma writes_4_capitalStructure : writes 4 "capitalStructure".
Proof.
  exists ∅, (obj [("capitalStructure", VArr [])]). eexists.
  split; [reflexivity|]. by vm_compute.
Qed.

Lemma writes_termSheet (k : nat) : k = 4 ∨ k = 5 ∨ k = 6 → writes k "termSheet".
Proof.
  intros [->|[->| ->]].
  - exists ∅, emptyPatch. eexists. split; [reflexivity|]. by vm_compute.
  - exists sampleMemo,
      (obj [("termSheet", obj [("negativeCovenants", VArr [VStr "No liens"])])]).
    eexists. split; [reflexivity|]. by vm_compute.
  - exists sampleMemo, borrowerPatch. eexists.
    split; [reflexivity|]. by vm_compute.
Qed.

(** C6, as amended. Two different phases write a common top-level field
    only in these cases: [capitalStructure], written by phases 2 and 4, and
    [termSheet], written by phases 4, 5 and 6. *)
Theorem field_ownership (i j : nat) (X : string)
    (Hij : i ≠ j) (Hi : writes i X) (Hj : writes j X) :
  (X = "capitalStructure" ∧ (i = 2 ∧ j = 4 ∨ i = 4 ∧ j = 2)) ∨
  (X = "termSheet" ∧ (i = 4 ∨ i = 5 ∨ i = 6) ∧ (j = 4 ∨ j = 5 ∨ j = 6)).
Proof.
  apply writes_only in Hi, Hj.
  destruct i as [|[|[|[|[|[|[|i]]]]]]]; simpl in Hi;
    try (by apply elem_of_nil in Hi);
    destruct j as [|[|[|[|[|[|[|j]]]]]]]; simpl in Hj;
    try (by apply elem_of_nil in Hj); try done;
    set_unfold; naive_solver.
Qed.

Lemma field_ownership_witness :
  ("capitalStructure" = "capitalStructure" ∧ (2 = 2 ∧ 4 = 4 ∨ 2 = 4 ∧ 4 = 2)) ∨
  ("capitalStructure" = "termSheet"
   ∧ (2 = 4 ∨ 2 = 5 ∨ 2 = 6) ∧ (4 = 4 ∨ 4 = 5 ∨ 4 = 6)).
Proof.
  apply (field_ownership 2 4 "capitalStructure").
  - lia.
  - exists ∅, (obj [("capitalStructure", VArr [])]). eexists.
    split; [reflexivity|]. by vm_compute.
  - exists ∅, (obj [("capitalStructure", VArr [])]). eexists.
    split; [reflexivity|]. by vm_compute.
Defined.

(** C6, counterexample. [capitalStructure] is written by the Financial
    Modeling phase and by the Deal Structuring phase, and is no term-sheet
    refinement of the Writing phase. *)
Lemma field_ownership_counterexample :
  ¬ (∀ (i j : nat) (X : string),
       i ≠ j → writes i X → writes j X → X = "termSheet" ∧ (i = 6 ∨ j = 6)).
Proof.
  intros H.
  destruct (H 2 4 "capitalStructure" ltac:(lia)
              writes_2_capitalStructure writes_4_capitalStructure) as [? _].
  done.
Qed.

(** ** C8: extended reasoning and temperature *)

(** C8. With extended reasoning asked for on the model that supports it,
    the configuration holds a thinking budget and no temperature; without
    extended reasoning it holds the given temperature (0 when none is given)
    and no thinking entry. *)
Theorem thinking_excludes_temperature (o : GenerateOptions) :
  (useThinking o = Some true → o_model o = CLAUDE_SONNET →
     thinking (buildConfig o)
     = Some {| thinking_type := "enabled"; budget_tokens := 8000 |}
     ∧ temperature (buildConfig o) = None) ∧
  (default false (useThinking o) = false →
     temperature (buildConfig o) = Some (default 0%Q (o_temperature o))
     ∧ thinking (buildConfig o) = None).
Proof.
  unfold buildConfig. split.
  - intros -> ->. by vm_compute.
  - intros ->. by simpl.
Qed.

Lemma thinking_excludes_temperature_witness :
  thinking (buildConfig
    {| o_model := CLAUDE_SONNET; systemPrompt := "You are a senior risk analyst. Output strictly valid JSON.";
       userPrompt := "Assess Acme."; o_attachments := None;
       useThinking := Some true; o_temperature := None; skills := None |})
  = Some {| thinking_type := "enabled"; budget_tokens := 8000 |}
  ∧ temperature (buildConfig
    {| o_model := CLAUDE_SONNET; systemPrompt := "You are a senior risk analyst. Output strictly valid JSON.";
       userPrompt := "Assess Acme."; o_attachments := None;
       useThinking := Some true; o_temperature := None; skills := None |})
  = None.
Proof.
  apply (proj1 (thinking_excludes_temperature _)); reflexivity.
Defined.

(** ** C7: attachments in the request *)

Lemma route_fold (atts : list Attachment) (content : list block) (text : string) :
  foldl routeAttachment (content, text) atts
  = ((content ++ omap binaryBlock atts)%list, text +:+ notes atts).
Proof.
  revert content text. induction atts as [|att atts IH]; intros content text.
  - simpl. f_equal; [by rewrite app_nil_r|].
    clear. induction text; simpl; congruence.
  - simpl. unfold binaryBlock, note, isPdf, isImage.
    destruct (String.eqb (mimeType att) "application/pdf");
      [|destruct (startsWith "image/" (mimeType att))];
      rewrite IH; f_equal;
      rewrite <-?app_assoc, ?append_assoc; simpl; try done;
      by rewrite ?append_assoc.
Qed.

Lemma userContent_eq (atts : list Attachment) (prompt : string) :
  userContent atts prompt
  = (omap binaryBlock atts ++ [TextBlock (prompt +:+ notes atts)])%list.
Proof. unfold userContent. by rewrite route_fold. Qed.

Lemma contains_note (att : Attachment) (atts : list Attachment) (prompt : string) :
  att ∈ atts → contains (note att) (prompt +:+ notes atts).
Proof.
  intros Hin. apply list_elem_of_split in Hin as (l1 & l2 & ->).
  exists (prompt +:+ notes l1), (notes l2).
  rewrite append_assoc. f_equal.
  induction l1 as [|a l1 IH]; [done|].
  change (notes ((a :: l1) ++ att :: l2))
    with (note a +:+ notes (l1 ++ att :: l2)).
  change (notes (a :: l1)) with (note a +:+ notes l1).
  by rewrite IH, append_assoc.
Qed.

Lemma excerpt_prefix (n : nat) (s : string) :
  startsWith (String.substring 0 n s) s = true
  ∧ (String.length (String.substring 0 n s) ≤ n)%nat.
Proof.
  unfold startsWith. revert s. induction n as [|n IH]; intros s.
  - destruct s; simpl; split; done || lia.
  - destruct s as [|c s]; cbn [String.substring String.prefix String.length].
    + split; done || lia.
    + destruct (IH s) as [? ?]. destruct (ascii_dec c c); [|done].
      split; done || lia.
Qed.

Lemma gbind_trace {A B} (l : list obs) (a : A) (k : A → gen B) :
  fst (gbind (l, Ok a) k) = (l ++ fst (k a))%list.
Proof. simpl. by destruct (k a). Qed.

Lemma gbind_trace_any {A B} (m : gen A) (k : A → gen B) :
  ∃ rest, fst (gbind m k) = (fst m ++ rest)%list.
Proof.
  destruct m as [l [a|e]].
  - eexists. apply gbind_trace.
  - exists []. simpl. by rewrite app_nil_r.
Qed.

Lemma tryCatch_trace {A} (m : gen A) (h : exn → gen A) :
  ∃ rest, fst (tryCatch m h) = (fst m ++ rest)%list.
Proof.
  destruct m as [l [a|e]]; simpl.
  - exists []. by rewrite app_nil_r.
  - destruct (h e). by eexists.
Qed.

Lemma claude_first_call JSON_parse texts responses prompt atts
    (currentMemo : memo) model :
  ∃ e c rest,
    fst (runClaudeWorkflow JSON_parse texts responses prompt atts
           currentMemo model)
    = Emit e :: Call 1 (ClaudeRequest c) :: rest
    ∧ messages c = userContent atts (claudeUser1 texts prompt).
Proof.
  unfold runClaudeWorkflow.
  match goal with
  | |- context [tryCatch ?m ?h] => destruct (tryCatch_trace m h) as [r1 ->]
  end.
  unfold yield at 1. rewrite gbind_trace.
  match goal with
  | |- context [gbind (generateWithClaude ?r 1 ?o) ?k] =>
      destruct (gbind_trace_any (generateWithClaude r 1 o) k) as [r2 ->]
  end.
  do 3 eexists. split; [reflexivity|]. reflexivity.
Qed.

Lemma gemini_first_call JSON_parse texts responses prompt atts
    (currentMemo : memo) :
  ∃ e g rest,
    fst (runGeminiWorkflow JSON_parse texts responses prompt atts currentMemo)
    = Emit e :: Call 1 (GeminiRequest g) :: rest
    ∧ parts g
      = ((InlineData <$> atts) ++ [TextPart (geminiText1 texts prompt)])%list.
Proof.
  unfold runGeminiWorkflow.
  match goal with
  | |- context [tryCatch ?m ?h] => destruct (tryCatch_trace m h) as [r1 ->]
  end.
  unfold yield at 1. rewrite gbind_trace.
  match goal with
  | |- context [gbind (generateContent ?r 1 ?ps ?b) ?k] =>
      destruct (gbind_trace_any (generateContent r 1 ps b) k) as [r2 ->]
  end.
  do 3 eexists. split; [reflexivity|]. reflexivity.
Qed.

Lemma contains_tail (a b s : string) : contains (a +:+ b) s → contains b s.
Proof.
  intros (pre & post & ->). exists (pre +:+ a), post.
  by rewrite !append_assoc.
Qed.

Lemma requestOf_first (e : step) (r : request) (rest : list obs) :
  requestOf 1 (Emit e :: Call 1 r :: rest) = Some r.
Proof. done. Qed.

(** C7, as amended. In the Claude orchestrator the content of the phase 1
    request routes each attachment by its [mimeType]: [application/pdf] as
    a [document] block, [image/*] as an [image] block, anything else as no
    block at all but as a reference in the text block, with the name, the
    type and at most the first 50 characters of the data; every binary block
    of the content comes from a PDF or image attachment. The Gemini
    orchestrator does no such routing: its phase 1 request carries every
    attachment as an [inlineData] part, whatever its type. *)
Theorem attachment_routing JSON_parse texts responses (prompt : string)
    (atts : list Attachment) (currentMemo : memo) (model : option string)
    (att : Attachment) (content : list block)
    (Hin : att ∈ atts)
    (Hcontent : content = userContent atts (claudeUser1 texts prompt)) :
  (∃ c, requestOf 1 (fst (runClaudeWorkflow JSON_parse texts responses prompt
                            atts currentMemo model))
        = Some (ClaudeRequest c)
        ∧ messages c = content) ∧
  (isPdf att = true →
     DocumentBlock "application/pdf" (data att) ∈ content
     ∧ ∃ text, last content = Some (TextBlock text)
         ∧ contains ("[Attached PDF: " +:+ name att +:+ "]") text) ∧
  (isPdf att = false → isImage att = true →
     ImageBlock (mimeType att) (data att) ∈ content
     ∧ ∃ text, last content = Some (TextBlock text)
         ∧ contains ("[Attached Image: " +:+ name att +:+ "]") text) ∧
  (isPdf att = false → isImage att = false →
     ∃ text, last content = Some (TextBlock text)
       ∧ contains ("[Attachment: " +:+ name att +:+ " (" +:+ mimeType att
                   +:+ ")]" +:+ nl +:+ "(Base64 Data: " +:+ excerpt att
                   +:+ "...)") text
       ∧ startsWith (excerpt att) (data att) = true
       ∧ (String.length (excerpt att) ≤ 50)%nat) ∧
  (∀ b, b ∈ content → isBinary b = true →
        ∃ a, a ∈ atts ∧ (isPdf a = true ∨ isImage a = true)
             ∧ binaryBlock a = Some b) ∧
  (∃ g, requestOf 1 (fst (runGeminiWorkflow JSON_parse texts responses prompt
                            atts currentMemo))
        = Some (GeminiRequest g)
        ∧ InlineData att ∈ parts g).
Proof.
  assert (Hlast : last content
                  = Some (TextBlock (claudeUser1 texts prompt +:+ notes atts)))
    by (by rewrite Hcontent, userContent_eq, last_snoc).
  pose proof (contains_note att atts (claudeUser1 texts prompt) Hin) as Hnote.
  unfold note in Hnote. apply contains_tail, contains_tail in Hnote.
  assert (Hblock : ∀ b, binaryBlock att = Some b → b ∈ content).
  { intros b Hb. rewrite Hcontent, userContent_eq.
    apply elem_of_app. left. apply list_elem_of_omap. eauto. }
  split; [|split; [|split; [|split; [|split]]]].
  - destruct (claude_first_call JSON_parse texts responses prompt atts
                currentMemo model) as (e & c & rest & -> & Hc).
    exists c. by rewrite requestOf_first, Hcontent.
  - intros Hp. rewrite Hp in Hnote. split; [|eauto].
    apply Hblock. unfold binaryBlock. by rewrite Hp.
  - intros Hp Hi. rewrite Hp, Hi in Hnote. split; [|eauto].
    apply Hblock. unfold binaryBlock. by rewrite Hp, Hi.
  - intros Hp Hi. rewrite Hp, Hi in Hnote. eexists. split; [done|].
    split; [done|]. apply excerpt_prefix.
  - intros b Hb Hbin. rewrite Hcontent, userContent_eq in Hb.
    apply elem_of_app in Hb as [Hb|Hb].
    + apply list_elem_of_omap in Hb as (a & Ha & Hab). exists a.
      split; [done|]. split; [|done]. unfold binaryBlock in Hab.
      destruct (isPdf a); [by left|]. destruct (isImage a); [by right|done].
    + apply list_elem_of_singleton in Hb as ->. done.
  - destruct (gemini_first_call JSON_parse texts responses prompt atts
                currentMemo) as (e & g & rest & -> & Hg).
    exists g. rewrite requestOf_first, Hg. split; [done|].
    apply elem_of_app. left. by apply list_elem_of_fmap_2.
Qed.

Lemma attachment_routing_witness :
  ∃ text,
    last (userContent [pdfAttachment; csvAttachment]
            (claudeUser1 sampleTexts "Analyze Acme Corp"))
    = Some (TextBlock text)
    ∧ contains ("[Attachment: ledger.csv (text/csv)]" +:+ nl
                +:+ "(Base64 Data: YSxiLGMKMSwyLDM=...)") text
    ∧ startsWith (excerpt csvAttachment) (data csvAttachment) = true
    ∧ (String.length (excerpt csvAttachment) ≤ 50)%nat.
Proof.
  apply (attachment_routing tableParse sampleTexts (fun _ => claudeReply "{}")
           "Analyze Acme Corp" [pdfAttachment; csvAttachment] ∅ None
           csvAttachment _ ltac:(set_solver) eq_refl);
    reflexivity.
Defined.

(** C7, counterexample. Given a CSV attachment, the Gemini orchestrator's
    phase 1 request carries it as binary inline data. *)
Lemma attachment_routing_counterexample :
  isPdf csvAttachment = false ∧ isImage csvAttachment = false ∧
  requestOf 1 (fst (runGeminiWorkflow tableParse sampleTexts
                      (fun _ => geminiReply "{}") "Analyze Acme Corp"
                      [csvAttachment] ∅))
  = Some (GeminiRequest
            {| g_model := "gemini-2.5-flash";
               parts := [InlineData csvAttachment;
                         TextPart "User Request: Analyze Acme Corp"];
               googleSearch := true;
               responseMimeType := "application/json" |}).
Proof. repeat split; by vm_compute. Qed.

(** ** Runs, step by step *)

Ltac run_step H :=
  cbn [tryCatch gbind yield lift generateWithClaude generateContent app] in H;
  match type of H with
  | context [match ?r with Ok _ => _ | Throw _ => _ end] =>
      let E := fresh "E" in destruct r eqn:E
  end;
  cbn [tryCatch gbind yield lift generateWithClaude generateContent app] in H.



(** ** What the caller holds after each phase *)

Lemma pick_lookup (keys : list string) (m : memo) (X : string) :
  pick keys m !! X = if decide (X ∈ keys) then Some (rd m X) else None.
Proof.
  unfold pick. induction keys as [|a keys IH].
  - simpl. apply lookup_empty.
  - rewrite fmap_cons. cbn [list_to_map foldr uncurry]. cbn beta.
    change (foldr _ ∅ _) with (list_to_map (M:=memo) ((λ k, (k, rd m k)) <$> keys)).
    rewrite lookup_insert, IH. repeat case_decide; set_solver.
Qed.

Lemma merge_written (k : nat) (D D' : memo) (P : value) (X : string) :
  mergeOf k D P = Ok D' → X ∈ writtenFields k → is_Some (D' !! X).
Proof.
  intros H HX.
  destruct k as [|[|[|[|[|[|[|k]]]]]]]; simpl in HX;
    try (by apply elem_of_nil in HX).
  - invert_merge 1 H. subst D'. in_list HX; by simplify_map_eq.
  - invert_merge 2 H. subst D'. in_list HX; by simplify_map_eq.
  - invert_merge 3 H. subst D'. in_list HX; by simplify_map_eq.
  - invert_merge 4 H. subst D'. in_list HX; by simplify_map_eq.
  - invert_merge 5 H. subst D'. in_list HX; by simplify_map_eq.
  - invert_merge 6 H. subst D'. in_list HX; by simplify_map_eq.
Qed.

(** [{...prev, ...partialData}] is the orchestrator's working memo, when
    [prev] was the working memo before the phase. *)
Lemma observed_step (k : nat) (D : memo) (P : value) (D' : memo)
    (keys : list string) :
  mergeOf k D P = Ok D' → keys = writtenFields k → pick keys D' ∪ D = D'.
Proof.
  intros H ->. apply map_eq. intros X. rewrite lookup_union, pick_lookup.
  case_decide as HX.
  - destruct (merge_written k D D' P X H HX) as [v Hv].
    unfold rd. rewrite Hv. simpl. by destruct (D !! X).
  - rewrite (merge_other_fields k D D' P X H HX). by destruct (D !! X).
Qed.

Lemma merge_covers (k : nat) (D : memo) (P : value) (D' : memo) :
  mergeOf k D P = Ok D' → D' ∪ D = D'.
Proof.
  intros H. apply map_eq. intros X. rewrite lookup_union.
  destruct (decide (X ∈ writtenFields k)) as [HX|HX].
  - destruct (merge_written k D D' P X H HX) as [v ->]. by destruct (D !! X).
  - rewrite (merge_other_fields k D D' P X H HX). by destruct (D !! X).
Qed.

(** ** Runs that throw, runs that do not *)

Ltac settle :=
  repeat first
    [ progress cbn [mergedThrough bind mergeOf Nat.sub]
    | progress unfold claudePatch, geminiPatch
    | match goal with
      | E : ?l = Ok _ |- context [?l] => rewrite E
      | E : ?l = Throw _ |- context [?l] => rewrite E
      end ];
  try reflexivity.

Ltac observe_step :=
  match goal with
  | E : ?mk ?D ?P = Ok ?D' |- context [pick ?keys ?D' ∪ ?D] =>
      first [ rewrite (observed_step 1 D P D' keys E eq_refl)
            | rewrite (observed_step 2 D P D' keys E eq_refl)
            | rewrite (observed_step 3 D P D' keys E eq_refl)
            | rewrite (observed_step 4 D P D' keys E eq_refl)
            | rewrite (observed_step 5 D P D' keys E eq_refl) ]
  end.

Ltac observe_all :=
  unfold observe;
  cbn [foldl App.onStep App.memoData App.messages App.workflowEvents
       App.isGenerating partialData event];
  repeat observe_step; try reflexivity.

Ltac failed_at k :=
  exists k; eexists;
  split; [lia|]; split; [reflexivity|]; split; [reflexivity|];
  split; [reflexivity|]; split; [settle|]; split; [settle|]; observe_all.

Ltac failed_somewhere H :=
  injection H as <- <-;
  first [ failed_at 1 | failed_at 2 | failed_at 3
        | failed_at 4 | failed_at 5 | failed_at 6 ].

Lemma claude_run_fails JSON_parse texts responses (prompt : string)
    (atts : list Attachment) (currentMemo : memo) (model : option string)
    (trace : list obs) (e : exn) :
  runClaudeWorkflow JSON_parse texts responses prompt atts currentMemo model
  = (trace, Throw e) →
  ∃ k wm, (1 ≤ k ≤ 6)%nat
    ∧ callsOf trace = seq 1 k
    ∧ tag <$> eventsOf trace
      = (completedLog (k - 1)
         ++ [(phaseAgent k, active); (Orchestrator, failed)])%list
    ∧ last (eventsOf trace)
      = Some (createEvent Orchestrator failed
                ("Workflow interrupted: " +:+ errorText e))
    ∧ mergedThrough (claudePatch JSON_parse responses) currentMemo (k - 1)
      = Ok wm
    ∧ (let! p := claudePatch JSON_parse responses k in mergeOf k wm p)
      = Throw e
    ∧ observe currentMemo trace = wm.
Proof.
  intros H. unfold runClaudeWorkflow in H.
  do 18 (run_step H; [|by failed_somewhere H]).
  discriminate H.
Qed.

Lemma gemini_run_fails JSON_parse texts responses (prompt : string)
    (atts : list Attachment) (currentMemo : memo)
    (trace : list obs) (e : exn) :
  runGeminiWorkflow JSON_parse texts responses prompt atts currentMemo
  = (trace, Throw e) →
  ∃ k wm, (1 ≤ k ≤ 6)%nat
    ∧ callsOf trace = seq 1 k
    ∧ tag <$> eventsOf trace
      = (completedLog (k - 1)
         ++ [(phaseAgent k, active); (Orchestrator, failed)])%list
    ∧ last (eventsOf trace)
      = Some (createEvent Orchestrator failed
                "Workflow interrupted due to error.")
    ∧ mergedThrough (geminiPatch JSON_parse responses) currentMemo (k - 1)
      = Ok wm
    ∧ (let! p := geminiPatch JSON_parse responses k in mergeOf k wm p)
      = Throw e
    ∧ observe currentMemo trace = wm.
Proof.
  intros H. unfold runGeminiWorkflow in H.
  do 18 (run_step H; [|by failed_somewhere H]).
  discriminate H.
Qed.

Lemma merge6_status (D D' : memo) (P : value) :
  merge6 D P = Ok D' → rd D' "status" = VStr "Draft".
Proof. intros H. apply merge6_inv in H as ->. unfold rd. by simplify_map_eq. Qed.

Ltac succeeded H :=
  injection H as <-; eexists;
  split; [settle|]; split; [reflexivity|]; split; [|split; [reflexivity|]];
  [ observe_all;
    match goal with
    | E : merge6 ?D ?P = Ok ?D' |- _ => apply (merge_covers 6 D P D' E)
    end
  | match goal with
    | E : merge6 ?D ?P = Ok ?D' |- _ => apply (merge6_status D D' P E)
    end ].

Lemma claude_run_succeeds JSON_parse texts responses (prompt : string)
    (atts : list Attachment) (currentMemo : memo) (model : option string)
    (trace : list obs) :
  runClaudeWorkflow JSON_parse texts responses prompt atts currentMemo model
  = (trace, Ok tt) →
  ∃ wm, mergedThrough (claudePatch JSON_parse responses) currentMemo 6 = Ok wm
    ∧ callsOf trace = seq 1 6
    ∧ observe currentMemo trace = wm
    ∧ last trace
      = Some (Emit {| event := createEvent Writer completed
                        "Final Investment Memo assembled successfully.";
                      partialData := Some wm |})
    ∧ rd wm "status" = VStr "Draft".
Proof.
  intros H. unfold runClaudeWorkflow in H.
  do 18 (run_step H; [|discriminate H]).
  succeeded H.
Qed.

Lemma gemini_run_succeeds JSON_parse texts responses (prompt : string)
    (atts : list Attachment) (currentMemo : memo) (trace : list obs) :
  runGeminiWorkflow JSON_parse texts responses prompt atts currentMemo
  = (trace, Ok tt) →
  ∃ wm, mergedThrough (geminiPatch JSON_parse responses) currentMemo 6 = Ok wm
    ∧ callsOf trace = seq 1 6
    ∧ observe currentMemo trace = wm
    ∧ last trace
      = Some (Emit {| event := createEvent Writer completed
                        "Final Investment Memo assembled successfully.";
                      partialData := Some wm |})
    ∧ rd wm "status" = VStr "Draft".
Proof.
  intros H. unfold runGeminiWorkflow in H.
  do 18 (run_step H; [|discriminate H]).
  succeeded H.
Qed.



(** ** C2: a run that throws *)

(** C2, at the failing input. With a backend whose first call is rejected
    with the message [429 quota exceeded], the Gemini orchestrator stops
    after phase 1's [active] event, emits one [failed] event of the agent
    [Orchestrator] and throws the error again, but that event's message is
    a fixed text without the error's message; the Claude orchestrator on the
    same backend puts the error's message in the event. *)
Theorem gemini_failed_event_message :
  runGeminiWorkflow tableParse sampleTexts backendDown "Analyze Acme Corp" []
    sampleMemo
  = ([Emit {| event := createEvent DataCollector active
                         "Searching for filings (10-K/Q) and market data...";
              partialData := None |};
      Call 1 (GeminiRequest
                {| g_model := "gemini-2.5-flash";
                   parts := [TextPart "User Request: Analyze Acme Corp"];
                   googleSearch := true;
                   responseMimeType := "application/json" |});
      Emit {| event := createEvent Orchestrator failed
                         "Workflow interrupted due to error.";
              partialData := None |}],
     Throw (JsError "429 quota exceeded"))
  ∧ last (eventsOf (fst (runClaudeWorkflow tableParse sampleTexts backendDown
                           "Analyze Acme Corp" [] sampleMemo None)))
    = Some (createEvent Orchestrator failed
              "Workflow interrupted: 429 quota exceeded").
Proof. split; by vm_compute. Qed.

(** ** C9: the confirmation call *)

Lemma foldl_onStep (st : App.state) (trace : list obs) :
  App.memoData (foldl App.onStep st trace) = observe (App.memoData st) trace
  ∧ App.workflowEvents (foldl App.onStep st trace)
    = (App.workflowEvents st ++ eventsOf trace)%list
  ∧ App.messages (foldl App.onStep st trace) = App.messages st.
Proof.
  unfold observe. revert st.
  induction trace as [|o trace IH] using rev_ind; intros st.
  - simpl. by rewrite app_nil_r.
  - rewrite !foldl_app. cbn [foldl]. destruct (IH st) as (Hm & He & Hs).
    unfold eventsOf. rewrite omap_app. cbn [omap].
    destruct o as [s|n r]; cbn [App.onStep App.memoData App.workflowEvents
                                App.messages option_bind mbind].
    + rewrite Hm, He, Hs. by rewrite <-app_assoc.
    + rewrite Hm, He, Hs. by rewrite app_nil_r.
Qed.




Lemma or_else_ok (v w : value) :
  or_else v (Ok w) = Ok (if truthy v then v else w).
Proof. unfold or_else. by destruct (truthy v). Qed.





(** * Further properties *)

(** ** More on [cleanJson] *)

Lemma append_empty_r (s : string) : s +:+ EmptyString = s.
Proof. induction s; simpl; congruence. Qed.

Lemma contains_refl (s : string) : contains s s.
Proof. exists EmptyString, EmptyString. by rewrite append_empty_r. Qed.

Lemma contains_trans (a b c : string) :
  contains a b → contains b c → contains a c.
Proof.
  intros (p1 & q1 & ->) (p2 & q2 & ->). exists (p2 +:+ p1), (q1 +:+ q2).
  by rewrite !append_assoc.
Qed.

Lemma contains_suffix (p s : string) : contains s (p +:+ s).
Proof. exists p, EmptyString. by rewrite append_empty_r. Qed.

Lemma contains_prefix (s q : string) : contains s (s +:+ q).
Proof. by exists EmptyString, q. Qed.

Lemma trimStart_suffix (s : string) :
  ∃ w, allWs w = true ∧ s = w +:+ trimStart s.
Proof.
  induction s as [|c s (w & Hw & IH)]; [by exists EmptyString|].
  simpl. destruct (is_ws c) eqn:Hc.
  - exists (String c w). split; [|simpl; congruence].
    unfold allWs in *. simpl. by rewrite Hc.
  - by exists EmptyString.
Qed.

Lemma trimEnd_prefix (s : string) : ∃ w, s = trimEnd s +:+ w.
Proof.
  induction s as [|c s [w IH]]; [by exists EmptyString|].
  simpl. destruct (trimEnd s) as [|d r] eqn:E.
  - destruct (is_ws c).
    + by exists (String c s).
    + exists w. simpl. simpl in IH. congruence.
  - exists w. simpl in *. congruence.
Qed.

Lemma dropS_suffix (n : nat) (s : string) : ∃ p, s = p +:+ dropS n s.
Proof.
  revert s. induction n as [|n IH]; intros s; [by exists EmptyString|].
  destruct s as [|c s]; [by exists EmptyString|].
  destruct (IH s) as [p Hp]. exists (String c p). simpl. congruence.
Qed.

Lemma replaceClose_prefix (s : string) : ∃ q, s = replaceClose s +:+ q.
Proof.
  induction s as [|c s [q IH]]; rewrite replaceClose_unfold.
  - exists EmptyString. by destruct (String.eqb _ _).
  - destruct (String.eqb _ _); [by eexists|]. exists q. simpl. congruence.
Qed.

Lemma replaceOpen_contained (p s : string) : contains (replaceOpen p s) s.
Proof.
  unfold replaceOpen. destruct (startsWith p s); [|apply contains_refl].
  destruct (dropS_suffix (String.length p) s) as [a Ha].
  destruct (trimStart_suffix (dropS (String.length p) s)) as (w & _ & Hw).
  rewrite Ha at 2. rewrite Hw at 2.
  eapply contains_trans; [|apply contains_suffix]. apply contains_suffix.
Qed.

Lemma trim_contained (s : string) : contains (trim s) s.
Proof.
  unfold trim. destruct (trimStart_suffix s) as (w & _ & Hw).
  destruct (trimEnd_prefix (trimStart s)) as [q Hq].
  rewrite Hw at 2. rewrite Hq at 2.
  eapply contains_trans; [apply contains_prefix|apply contains_suffix].
Qed.

Lemma replaceClose_contained (s : string) : contains (replaceClose s) s.
Proof.
  destruct (replaceClose_prefix s) as [q Hq]. rewrite Hq at 2.
  apply contains_prefix.
Qed.

(** X1. [cleanJson] never invents text: whatever its argument, the result is
    a contiguous part of it. *)
Theorem cleanJson_keeps_a_part (text : string) : contains (cleanJson text) text.
Proof.
  unfold cleanJson.
  destruct (startsWith "```json" (trim text));
    [|destruct (startsWith fence (trim text))];
    repeat first
      [ apply trim_contained
      | eapply contains_trans; [apply replaceClose_contained|]
      | eapply contains_trans; [apply replaceOpen_contained|] ].
Qed.

(** trimmed results *)
Lemma trimStart_idem (s : string) : trimStart (trimStart s) = trimStart s.
Proof.
  induction s as [|c s IH]; [done|]. simpl.
  destruct (is_ws c) eqn:Hc; [done|]. simpl. by rewrite Hc.
Qed.

Lemma trimEnd_suffix (a b : string) :
  trimEnd (a +:+ b) = a +:+ b → trimEnd b = b.
Proof.
  induction a as [|c a IH]; [done|]. simpl (String c a +:+ b).
  intros H. apply IH. by eapply trimEnd_tail.
Qed.

Lemma trimEnd_idem (s : string) : trimEnd (trimEnd s) = trimEnd s.
Proof.
  induction s as [|c s IH]; [done|]. simpl.
  destruct (trimEnd s) as [|d r] eqn:E.
  - destruct (is_ws c) eqn:Hc; [done|]. simpl. by rewrite Hc.
  - simpl. simpl in IH. rewrite IH. done.
Qed.

Lemma trimEnd_keeps_head (s : string) :
  trimStart s = s → trimStart (trimEnd s) = trimEnd s.
Proof.
  destruct s as [|c s]; [done|]. simpl.
  destruct (is_ws c) eqn:Hc.
  - intros H. apply (f_equal String.length) in H.
    destruct (trimStart_suffix s) as (w & _ & Hw).
    rewrite Hw in H at 2. simpl in H. rewrite length_app in H. lia.
  - intros _. destruct (trimEnd s); simpl; by rewrite Hc.
Qed.

Lemma trim_trimmed (s : string) : trimmed (trim s).
Proof.
  unfold trim. split.
  - apply trimEnd_keeps_head, trimStart_idem.
  - apply trimEnd_idem.
Qed.

Lemma replaceClose_empty (s : string) :
  replaceClose s = EmptyString → s = EmptyString ∨ trimStart s = fence.
Proof.
  rewrite replaceClose_unfold. destruct (String.eqb _ _) eqn:E.
  - right. by apply String.eqb_eq.
  - destruct s; [by left|done].
Qed.

Lemma replaceClose_trimmed (s : string) : trimmed s → trimmed (replaceClose s).
Proof.
  intros [Hs He]. split.
  - destruct s as [|c s]; [done|]. rewrite replaceClose_unfold.
    destruct (String.eqb _ _); [done|]. simpl in *.
    destruct (is_ws c); [|done].
    apply (f_equal String.length) in Hs.
    destruct (trimStart_suffix s) as (w & _ & Hw).
    rewrite Hw in Hs at 2. simpl in Hs. rewrite length_app in Hs. lia.
  - clear Hs. induction s as [|c s IH]; [done|].
    rewrite replaceClose_unfold. destruct (String.eqb _ _) eqn:E; [done|].
    pose proof (trimEnd_tail c s He) as Hs. specialize (IH Hs).
    simpl. rewrite IH. destruct (replaceClose s) as [|d r] eqn:Er; [|done].
    destruct (is_ws c) eqn:Hc; [exfalso|done].
    apply replaceClose_empty in Er as [->|Er].
    + simpl in He. by rewrite Hc in He.
    + apply String.eqb_neq in E. apply E. simpl. by rewrite Hc.
Qed.

Lemma replaceOpen_trimmed (p s : string) :
  trimmed s → trimmed (replaceOpen p s).
Proof.
  intros [Hs He]. unfold replaceOpen. destruct (startsWith p s); [|done].
  split; [apply trimStart_idem|].
  destruct (dropS_suffix (String.length p) s) as [a Ha].
  destruct (trimStart_suffix (dropS (String.length p) s)) as (w & _ & Hw).
  rewrite Hw in Ha. rewrite Ha, <-append_assoc in He.
  by apply trimEnd_suffix in He.
Qed.

(** X2. The result of [cleanJson] carries no white space at either end,
    fenced or not. *)
Theorem cleanJson_trimmed (text : string) : trimmed (cleanJson text).
Proof.
  unfold cleanJson. pose proof (trim_trimmed text).
  destruct (startsWith "```json" (trim text));
    [|destruct (startsWith fence (trim text))]; [| |done];
    by apply replaceClose_trimmed, replaceOpen_trimmed.
Qed.

Lemma trimStart_fence_ends (s : string) : trimStart s = fence → endsWith fence s.
Proof.
  intros H. destruct (trimStart_suffix s) as (w & _ & Hw).
  exists w. congruence.
Qed.

Lemma replaceClose_none (s : string) :
  ¬ endsWith fence s → replaceClose s = s.
Proof.
  induction s as [|c s IH]; intros Hn; rewrite replaceClose_unfold;
    (destruct (String.eqb _ _) eqn:E;
     [apply String.eqb_eq, trimStart_fence_ends in E; by destruct Hn|]);
    [done|].
  rewrite IH; [done|]. intros [p ->]. apply Hn. by exists (String c p).
Qed.

(** X3. A fence that is opened and never closed. The opening fence and the
    white space after it are removed and the body is returned whole, with
    the [json] tag and, when the text after the bare fence does not begin
    with [json], without it. *)
Theorem cleanJson_unclosed_fence (w0 w1 body w3 : string) :
  allWs w0 = true → allWs w1 = true → allWs w3 = true →
  trimmed body → body ≠ EmptyString → ¬ endsWith fence body →
  cleanJson (w0 +:+ ("```json" +:+ w1 +:+ body) +:+ w3) = body
  ∧ (startsWith "json" (w1 +:+ body) = false →
     cleanJson (w0 +:+ (fence +:+ w1 +:+ body) +:+ w3) = body).
Proof.
  intros H0 H1 H3 [Hs He] Hne Hn.
  assert (Hbody : trimStart (w1 +:+ body) = body).
  { rewrite trimStart_allWs by done. done. }
  assert (Htr : ∀ p, trimStart p = p → p ≠ EmptyString →
                     trimmed (p +:+ w1 +:+ body)).
  { intros p Hp Hpne. split.
    - rewrite trimStart_keeps by (by rewrite Hp). by rewrite Hp.
    - apply trimEnd_app; [|by destruct w1, body].
      apply trimEnd_app; done. }
  split.
  - unfold cleanJson. rewrite trim_surrounded; [|done|done|by apply Htr|done].
    rewrite startsWith_app, replaceOpen_app, Hbody.
    by apply replaceClose_none.
  - intros Hj. unfold cleanJson.
    rewrite trim_surrounded; [|done|done|by apply Htr|done].
    change (startsWith "```json" (fence +:+ w1 +:+ body))
      with (startsWith "json" (w1 +:+ body)).
    rewrite Hj, startsWith_app, replaceOpen_app, Hbody.
    by apply replaceClose_none.
Qed.

Lemma cleanJson_unclosed_fence_witness :
  cleanJson (" " +:+ ("```json" +:+ nl +:+ "{}") +:+ " ") = "{}".
Proof.
  apply (cleanJson_unclosed_fence " " nl "{}" " ").
  all: try reflexivity.
  - by split.
  - discriminate.
  - intros [p Hp]. apply (f_equal String.length) in Hp.
    rewrite length_app in Hp. simpl in Hp. lia.
Defined.

(** X4. The configuration holds a thinking entry exactly when extended
    reasoning is asked for and the model is [CLAUDE_SONNET]; it holds a
    temperature exactly when it holds no thinking entry; a thinking budget
    is below the token limit. Extended reasoning asked for on another model
    is dropped silently: no thinking entry, the temperature of the options
    (0 when none is given), and still the token limit of a reasoning
    call. *)
Theorem config_reasoning_or_temperature (o : GenerateOptions) :
  (is_Some (thinking (buildConfig o))
   ↔ default false (useThinking o) = true ∧ o_model o = CLAUDE_SONNET) ∧
  (is_Some (temperature (buildConfig o)) ↔ thinking (buildConfig o) = None) ∧
  (∀ t, thinking (buildConfig o) = Some t →
        (budget_tokens t < max_tokens (buildConfig o))%N) ∧
  (default false (useThinking o) = true → o_model o ≠ CLAUDE_SONNET →
     thinking (buildConfig o) = None
     ∧ temperature (buildConfig o) = Some (default 0%Q (o_temperature o))
     ∧ max_tokens (buildConfig o) = 16000%N).
Proof.
  unfold buildConfig. cbn [thinking temperature max_tokens].
  destruct (default false (useThinking o)) eqn:Hu; cbn [andb];
    [case_bool_decide as Hm|]; unfold is_Some; naive_solver.
Qed.

(** X5. The skills container and the code execution tool come together:
    both are present when the options name at least one skill, both absent
    otherwise; the container holds the skills as given and the tool list
    holds the one code execution tool. *)
Theorem config_skills_need_code_execution (o : GenerateOptions) :
  (is_Some (container (buildConfig o)) ↔ is_Some (tools (buildConfig o))) ∧
  (is_Some (container (buildConfig o)) ↔ default [] (skills o) ≠ []) ∧
  (∀ sk, container (buildConfig o) = Some sk → sk = default [] (skills o)) ∧
  (∀ ts, tools (buildConfig o) = Some ts →
         ts = [{| tool_type := "code_execution_20250825";
                  tool_name := "code_execution" |}]).
Proof.
  unfold buildConfig. cbn [container tools].
  destruct (default [] (skills o)) as [|s l]; cbn [length];
    [rewrite bool_decide_eq_false_2 by lia|rewrite bool_decide_eq_true_2 by lia];
    unfold is_Some; naive_solver.
Qed.

(** X6. The user content of a request is the binary blocks of the PDF and
    image attachments, in the order of the attachments, followed by exactly
    one text block, which begins with the user prompt. It never holds more
    blocks than attachments plus one; without attachments, or with none that
    is a PDF or an image, it is a single text block. *)
Theorem userContent_order (atts : list Attachment) (prompt : string) :
  (∃ text, userContent atts prompt
           = (omap binaryBlock atts ++ [TextBlock text])%list
           ∧ startsWith prompt text = true) ∧
  (length (userContent atts prompt) ≤ length atts + 1)%nat ∧
  userContent [] prompt = [TextBlock prompt] ∧
  (Forall (fun a => isPdf a = false ∧ isImage a = false) atts →
   ∃ text, userContent atts prompt = [TextBlock text]).
Proof.
  rewrite userContent_eq. split; [|split; [|split]].
  - eexists. split; [done|]. apply startsWith_app.
  - rewrite List.length_app. cbn [length].
    assert (length (omap binaryBlock atts) ≤ length atts)%nat; [|lia].
    induction atts as [|a l IH]; [done|].
    change (omap binaryBlock (a :: l))
      with (match binaryBlock a with
            | Some y => y :: omap binaryBlock l
            | None => omap binaryBlock l
            end).
    destruct (binaryBlock a); cbn [length]; lia.
  - rewrite userContent_eq. simpl. by rewrite append_empty_r.
  - intros Hall. eexists.
    replace (omap binaryBlock atts) with (@nil block); [done|].
    induction Hall as [|a l [Hp Hi] _ IH]; [done|].
    change (omap binaryBlock (a :: l))
      with (match binaryBlock a with
            | Some y => y :: omap binaryBlock l
            | None => omap binaryBlock l
            end).
    unfold binaryBlock at 1. by rewrite Hp, Hi.
Qed.

(** ** When a merge raises *)









(** X9. A term sheet field that phase 4 wrote, other than the three
    covenant lists, survives phase 5 untouched and survives phase 6 unless
    the writer's own [termSheet] names the field, in which case the writer's
    value wins. *)
Theorem termSheet_accumulates (D D4 D5 D6 : memo) (P4 P5 P6 : value)
    (f : string) (v : value)
    (H4 : mergeOf 4 D P4 = Ok D4) (H5 : mergeOf 5 D4 P5 = Ok D5)
    (H6 : mergeOf 6 D5 P6 = Ok D6)
    (Hf : f ∉ covenantFields)
    (Hv : ownProps (get_opt P4 "termSheet") !! f = Some v) :
  get_opt (rd D4 "termSheet") f = v
  ∧ get_opt (rd D5 "termSheet") f = v
  ∧ (ownProps (get_opt P6 "termSheet") !! f = None →
     get_opt (rd D6 "termSheet") f = v)
  ∧ (∀ w, ownProps (get_opt P6 "termSheet") !! f = Some w →
          get_opt (rd D6 "termSheet") f = w).
Proof.
  invert_merge 4 H4. simpl in H5, H6.
  apply merge5_inv in H5. apply merge6_inv in H6.
  unfold covenantFields in Hf. not_in_list Hf.
  assert (E4 : rd D4 "termSheet"
               = VObj (spread2 (rd D "termSheet") (get_opt P4 "termSheet")))
    by (subst D4; unfold rd; by simplify_map_eq).
  assert (L4 : get_opt (rd D4 "termSheet") f = v).
  { rewrite E4, get_opt_obj. unfold rd, spread2.
    by rewrite lookup_union, Hv, union_Some_l. }
  assert (E5 : ∃ ts, rd D5 "termSheet" = VObj ts
                     ∧ ts !! f = ownProps (rd D4 "termSheet") !! f).
  { rewrite H5. eexists. split; [unfold rd; by rewrite lookup_insert_eq|].
    by rewrite !lookup_insert_ne by congruence. }
  destruct E5 as (ts5 & E5 & L5).
  assert (L5' : get_opt (rd D5 "termSheet") f = v).
  { rewrite E5, get_opt_obj. unfold rd. rewrite L5.
    rewrite E4 in L4 |- *. done. }
  assert (E6 : rd D6 "termSheet"
               = VObj (spread2 (rd D5 "termSheet") (get_opt P6 "termSheet")))
    by (rewrite H6; unfold rd; by simplify_map_eq).
  repeat split; try done.
  - intros Hn. rewrite E6, get_opt_obj. unfold rd at 1, spread2.
    rewrite lookup_union, Hn, (left_id_L None _).
    rewrite E5 in L5' |- *. done.
  - intros w Hw. rewrite E6, get_opt_obj. unfold rd at 1, spread2.
    by rewrite lookup_union, Hw, union_Some_l.
Qed.

Lemma termSheet_accumulates_witness :
  ∃ D4 D5 D6,
    mergeOf 4 sampleMemo borrowerPatch = Ok D4
    ∧ mergeOf 5 D4 emptyPatch = Ok D5
    ∧ mergeOf 6 D5 emptyPatch = Ok D6
    ∧ get_opt (rd D6 "termSheet") "borrower" = VStr "Bolt Ltd".
Proof.
  do 3 eexists. do 3 (split; [reflexivity|]).
  refine (proj1 (proj2 (proj2
            (termSheet_accumulates sampleMemo _ _ _ borrowerPatch emptyPatch
               emptyPatch "borrower" (VStr "Bolt Ltd") eq_refl eq_refl
               eq_refl _ _))) _).
  - unfold covenantFields. set_solver.
  - reflexivity.
  - reflexivity.
Defined.

(** X10. [capitalStructure] is written by phases 2 and 4 and by no later
    phase: after phase 4 it is the structuring output's value when that is
    truthy, else the modelling output's when that is truthy, else the
    caller's; phases 5 and 6 leave it as it is. *)
Theorem capitalStructure_last_writer (D D2 D3 D4 D5 D6 : memo)
    (P2 P3 P4 P5 P6 : value)
    (H2 : mergeOf 2 D P2 = Ok D2) (H3 : mergeOf 3 D2 P3 = Ok D3)
    (H4 : mergeOf 4 D3 P4 = Ok D4) (H5 : mergeOf 5 D4 P5 = Ok D5)
    (H6 : mergeOf 6 D5 P6 = Ok D6) :
  rd D4 "capitalStructure"
  = (if truthy (get_opt P4 "capitalStructure")
     then get_opt P4 "capitalStructure"
     else if truthy (get_opt P2 "capitalStructure")
          then get_opt P2 "capitalStructure"
          else rd D "capitalStructure")
  ∧ rd D6 "capitalStructure" = rd D4 "capitalStructure".
Proof.
  split.
  - rewrite (merge_fallback_fields 4 D3 D4 P4 "capitalStructure" H4)
      by set_solver.
    unfold choose. destruct (truthy (get_opt P4 _)); [done|].
    unfold rd at 1.
    rewrite (merge_other_fields 3 D2 D3 P3 "capitalStructure" H3)
      by (simpl; set_solver).
    fold (rd D2 "capitalStructure").
    by rewrite (merge_fallback_fields 2 D D2 P2 "capitalStructure" H2)
      by set_solver.
  - unfold rd.
    rewrite (merge_other_fields 6 D5 D6 P6 "capitalStructure" H6)
      by (simpl; set_solver).
    by rewrite (merge_other_fields 5 D4 D5 P5 "capitalStructure" H5)
      by (simpl; set_solver).
Qed.

Lemma capitalStructure_last_writer_witness :
  ∃ D2 D3 D4 D5 D6,
    mergeOf 2 sampleMemo mezzaninePatch = Ok D2
    ∧ mergeOf 3 D2 emptyPatch = Ok D3
    ∧ mergeOf 4 D3 emptyPatch = Ok D4
    ∧ mergeOf 5 D4 emptyPatch = Ok D5
    ∧ mergeOf 6 D5 emptyPatch = Ok D6
    ∧ rd D6 "capitalStructure" = rd D4 "capitalStructure".
Proof.
  do 5 eexists. do 5 (split; [reflexivity|]).
  apply (capitalStructure_last_writer sampleMemo _ _ _ _ _ mezzaninePatch
           emptyPatch emptyPatch emptyPatch emptyPatch
           eq_refl eq_refl eq_refl eq_refl eq_refl).
Defined.

(** ** Anatomy of a run *)

Ltac anatomy H :=
  injection H as <-; do 6 eexists;
  split; [reflexivity|]; split; [reflexivity|];
  repeat split; settle.

Lemma claude_success_anatomy JSON_parse texts responses (prompt : string)
    (atts : list Attachment) (currentMemo : memo) (model : option string)
    (trace : list obs) :
  runClaudeWorkflow JSON_parse texts responses prompt atts currentMemo model
  = (trace, Ok tt) →
  ∃ wm1 wm2 wm3 wm4 wm5 wm6,
    marksOf trace
    = [Event DataCollector active; Backend 1; Event DataCollector completed;
       Event FinancialModeler active; Backend 2;
       Event FinancialModeler completed;
       Event RiskAnalyst active; Backend 3; Event RiskAnalyst completed;
       Event StructuringExpert active; Backend 4;
       Event StructuringExpert completed;
       Event CovenantDesigner active; Backend 5;
       Event CovenantDesigner completed;
       Event Writer active; Backend 6; Event Writer completed]
    ∧ partialData <$> stepsOf trace
      = [None; Some (pick ["companyOverview"; "marketAnalysis"] wm1);
         None; Some (pick ["financialModel"; "financialAnalysis"; "scenarios";
                           "capitalStructure"] wm2);
         None; Some (pick ["risks"] wm3);
         None; Some (pick ["termSheet"; "capitalStructure"] wm4);
         None; Some (pick ["termSheet"] wm5);
         None; Some wm6]
    ∧ mergedThrough (claudePatch JSON_parse responses) currentMemo 1 = Ok wm1
    ∧ mergedThrough (claudePatch JSON_parse responses) currentMemo 2 = Ok wm2
    ∧ mergedThrough (claudePatch JSON_parse responses) currentMemo 3 = Ok wm3
    ∧ mergedThrough (claudePatch JSON_parse responses) currentMemo 4 = Ok wm4
    ∧ mergedThrough (claudePatch JSON_parse responses) currentMemo 5 = Ok wm5
    ∧ mergedThrough (claudePatch JSON_parse responses) currentMemo 6 = Ok wm6.
Proof.
  intros H. unfold runClaudeWorkflow in H.
  do 18 (run_step H; [|discriminate H]).
  anatomy H.
Qed.

Lemma gemini_success_anatomy JSON_parse texts responses (prompt : string)
    (atts : list Attachment) (currentMemo : memo) (trace : list obs) :
  runGeminiWorkflow JSON_parse texts responses prompt atts currentMemo
  = (trace, Ok tt) →
  ∃ wm1 wm2 wm3 wm4 wm5 wm6,
    marksOf trace
    = [Event DataCollector active; Backend 1; Event DataCollector completed;
       Event FinancialModeler active; Backend 2;
       Event FinancialModeler completed;
       Event RiskAnalyst active; Backend 3; Event RiskAnalyst completed;
       Event StructuringExpert active; Backend 4;
       Event StructuringExpert completed;
       Event CovenantDesigner active; Backend 5;
       Event CovenantDesigner completed;
       Event Writer active; Backend 6; Event Writer completed]
    ∧ partialData <$> stepsOf trace
      = [None; Some (pick ["companyOverview"; "marketAnalysis"] wm1);
         None; Some (pick ["financialModel"; "financialAnalysis"; "scenarios";
                           "capitalStructure"] wm2);
         None; Some (pick ["risks"] wm3);
         None; Some (pick ["termSheet"; "capitalStructure"] wm4);
         None; Some (pick ["termSheet"] wm5);
         None; Some wm6]
    ∧ mergedThrough (geminiPatch JSON_parse responses) currentMemo 1 = Ok wm1
    ∧ mergedThrough (geminiPatch JSON_parse responses) currentMemo 2 = Ok wm2
    ∧ mergedThrough (geminiPatch JSON_parse responses) currentMemo 3 = Ok wm3
    ∧ mergedThrough (geminiPatch JSON_parse responses) currentMemo 4 = Ok wm4
    ∧ mergedThrough (geminiPatch JSON_parse responses) currentMemo 5 = Ok wm5
    ∧ mergedThrough (geminiPatch JSON_parse responses) currentMemo 6 = Ok wm6.
Proof.
  intros H. unfold runGeminiWorkflow in H.
  do 18 (run_step H; [|discriminate H]).
  anatomy H.
Qed.

(** X11. After a run that does not throw, the caller that folded the
    yielded partial data into its document holds exactly the result of the
    six merges; the last step yielded carries that whole document, and the
    backend was called six times. *)
Theorem successful_run_document prov JSON_parse texts responses
    (prompt : string) (atts : list Attachment) (currentMemo : memo)
    (model : option string) (trace : list obs)
    (Hrun : workflowOf prov JSON_parse texts responses prompt atts currentMemo
              model = (trace, Ok tt)) :
  ∃ wm, mergedThrough (patchOf prov JSON_parse responses) currentMemo 6 = Ok wm
    ∧ observe currentMemo trace = wm
    ∧ (partialData <$> last (stepsOf trace)) = Some (Some wm)
    ∧ callsOf trace = [1; 2; 3; 4; 5; 6].
Proof.
  destruct prov; simpl in Hrun.
  - destruct (gemini_run_succeeds _ _ _ _ _ _ _ Hrun)
      as (wm & Hm & Hc & Ho & Hl & _).
    exists wm. repeat split; try done.
    apply last_Some in Hl as [l' ->].
    unfold stepsOf. rewrite omap_app. cbn. by rewrite last_snoc.
  - destruct (claude_run_succeeds _ _ _ _ _ _ _ _ Hrun)
      as (wm & Hm & Hc & Ho & Hl & _).
    exists wm. repeat split; try done.
    apply last_Some in Hl as [l' ->].
    unfold stepsOf. rewrite omap_app. cbn. by rewrite last_snoc.
Qed.

Lemma successful_run_document_witness :
  ∃ wm,
    mergedThrough (patchOf App.claude tableParse (sampleReplies App.claude))
      sampleMemo 6 = Ok wm
    ∧ observe sampleMemo (fst (sampleRun App.claude (sampleReplies App.claude)))
      = wm
    ∧ (partialData
         <$> last (stepsOf (fst (sampleRun App.claude
                                   (sampleReplies App.claude)))))
      = Some (Some wm)
    ∧ callsOf (fst (sampleRun App.claude (sampleReplies App.claude)))
      = [1; 2; 3; 4; 5; 6].
Proof.
  apply (successful_run_document App.claude tableParse sampleTexts
           (sampleReplies App.claude) "Analyze Acme Corp"
           [pdfAttachment; csvAttachment] sampleMemo (Some CLAUDE_SONNET)).
  by vm_compute.
Defined.

(** X12. In a run that does not throw, an [active] event carries no data,
    the [completed] event of phases 1 to 5 carries exactly the fields that
    phase writes, read from the working memo after the phase's merge, and
    the [completed] event of phase 6 carries the whole working memo. *)
Theorem completed_events_carry_fields prov JSON_parse texts responses
    (prompt : string) (atts : list Attachment) (currentMemo : memo)
    (model : option string) (trace : list obs)
    (Hrun : workflowOf prov JSON_parse texts responses prompt atts currentMemo
              model = (trace, Ok tt)) :
  ∃ wm1 wm2 wm3 wm4 wm5 wm6,
    partialData <$> stepsOf trace
    = [None; Some (pick (writtenFields 1) wm1);
       None; Some (pick (writtenFields 2) wm2);
       None; Some (pick (writtenFields 3) wm3);
       None; Some (pick (writtenFields 4) wm4);
       None; Some (pick (writtenFields 5) wm5);
       None; Some wm6]
    ∧ mergedThrough (patchOf prov JSON_parse responses) currentMemo 1 = Ok wm1
    ∧ mergedThrough (patchOf prov JSON_parse responses) currentMemo 2 = Ok wm2
    ∧ mergedThrough (patchOf prov JSON_parse responses) currentMemo 3 = Ok wm3
    ∧ mergedThrough (patchOf prov JSON_parse responses) currentMemo 4 = Ok wm4
    ∧ mergedThrough (patchOf prov JSON_parse responses) currentMemo 5 = Ok wm5
    ∧ mergedThrough (patchOf prov JSON_parse responses) currentMemo 6 = Ok wm6
    ∧ ∀ keys wm X, pick keys wm !! X
                   = if decide (X ∈ keys) then Some (rd wm X) else None.
Proof.
  destruct prov; simpl in Hrun.
  - destruct (gemini_success_anatomy _ _ _ _ _ _ _ Hrun)
      as (wm1 & wm2 & wm3 & wm4 & wm5 & wm6 & _ & Hp & H).
    exists wm1, wm2, wm3, wm4, wm5, wm6. split; [exact Hp|].
    repeat split; try apply H. apply pick_lookup.
  - destruct (claude_success_anatomy _ _ _ _ _ _ _ _ Hrun)
      as (wm1 & wm2 & wm3 & wm4 & wm5 & wm6 & _ & Hp & H).
    exists wm1, wm2, wm3, wm4, wm5, wm6. split; [exact Hp|].
    repeat split; try apply H. apply pick_lookup.
Qed.

Lemma completed_events_carry_fields_witness :
  length (partialData
            <$> stepsOf (fst (sampleRun App.gemini
                                (sampleReplies App.gemini)))) = 12.
Proof.
  destruct (completed_events_carry_fields App.gemini tableParse sampleTexts
              (sampleReplies App.gemini) "Analyze Acme Corp"
              [pdfAttachment; csvAttachment] sampleMemo (Some CLAUDE_SONNET)
              (fst (sampleRun App.gemini (sampleReplies App.gemini))))
    as (wm1 & wm2 & wm3 & wm4 & wm5 & wm6 & -> & _).
  - by vm_compute.
  - reflexivity.
Defined.

(** X13. In a run that does not throw, each phase calls the backend exactly
    once, after its [active] event and before its [completed] event, and no
    call is made outside a phase. *)
Theorem one_call_per_phase prov JSON_parse texts responses
    (prompt : string) (atts : list Attachment) (currentMemo : memo)
    (model : option string) (trace : list obs)
    (Hrun : workflowOf prov JSON_parse texts responses prompt atts currentMemo
              model = (trace, Ok tt)) :
  marksOf trace
  = [Event DataCollector active; Backend 1; Event DataCollector completed;
     Event FinancialModeler active; Backend 2;
     Event FinancialModeler completed;
     Event RiskAnalyst active; Backend 3; Event RiskAnalyst completed;
     Event StructuringExpert active; Backend 4;
     Event StructuringExpert completed;
     Event CovenantDesigner active; Backend 5;
     Event CovenantDesigner completed;
     Event Writer active; Backend 6; Event Writer completed].
Proof.
  destruct prov; simpl in Hrun.
  - by destruct (gemini_success_anatomy _ _ _ _ _ _ _ Hrun)
      as (? & ? & ? & ? & ? & ? & Hm & _).
  - by destruct (claude_success_anatomy _ _ _ _ _ _ _ _ Hrun)
      as (? & ? & ? & ? & ? & ? & Hm & _).
Qed.

Lemma one_call_per_phase_witness :
  marksOf (fst (sampleRun App.gemini (sampleReplies App.gemini)))
  = [Event DataCollector active; Backend 1; Event DataCollector completed;
     Event FinancialModeler active; Backend 2;
     Event FinancialModeler completed;
     Event RiskAnalyst active; Backend 3; Event RiskAnalyst completed;
     Event StructuringExpert active; Backend 4;
     Event StructuringExpert completed;
     Event CovenantDesigner active; Backend 5;
     Event CovenantDesigner completed;
     Event Writer active; Backend 6; Event Writer completed].
Proof.
  apply (one_call_per_phase App.gemini tableParse sampleTexts
           (sampleReplies App.gemini) "Analyze Acme Corp"
           [pdfAttachment; csvAttachment] sampleMemo (Some CLAUDE_SONNET)).
  by vm_compute.
Defined.



Lemma mergedThrough_keeps (patch : nat → result value) (currentMemo wm : memo)
    (k : nat) (X : string) :
  mergedThrough patch currentMemo k = Ok wm →
  (∀ j, X ∉ writtenFields j) → wm !! X = currentMemo !! X.
Proof.
  intros H HX. revert wm H. induction k as [|k IH]; intros wm H.
  - by injection H as <-.
  - cbn [mergedThrough] in H.
    destruct (mergedThrough patch currentMemo k) as [wm0|] eqn:E0; [|done].
    cbn [bind] in H. destruct (patch (S k)) as [p|]; [|done]. cbn [bind] in H.
    rewrite (merge_other_fields (S k) wm0 wm p X H (HX _)). by apply IH.
Qed.

Lemma mergedThrough_covers (patch : nat → result value) (currentMemo wm : memo)
    (k : nat) :
  mergedThrough patch currentMemo k = Ok wm → wm ∪ currentMemo = wm.
Proof.
  revert wm. induction k as [|k IH]; intros wm H.
  - injection H as <-. apply (idemp_L (∪)).
  - cbn [mergedThrough] in H.
    destruct (mergedThrough patch currentMemo k) as [wm0|] eqn:E0; [|done].
    cbn [bind] in H. destruct (patch (S k)) as [p|]; [|done]. cbn [bind] in H.
    rewrite <-(merge_covers (S k) wm0 p wm H) at 1.
    rewrite <-(assoc_L (∪)), (IH wm0 eq_refl).
    apply (merge_covers (S k) wm0 p wm H).
Qed.

Lemma successful_run_document_aux prov JSON_parse texts responses
    (prompt : string) (atts : list Attachment) (currentMemo : memo)
    (model : option string) (trace : list obs) :
  workflowOf prov JSON_parse texts responses prompt atts currentMemo model
  = (trace, Ok tt) →
  ∃ wm, mergedThrough (patchOf prov JSON_parse responses) currentMemo 6 = Ok wm
    ∧ observe currentMemo trace = wm.
Proof.
  intros Hrun. destruct prov; simpl in Hrun.
  - destruct (gemini_run_succeeds _ _ _ _ _ _ _ Hrun) as (wm & ? & _ & ? & _).
    eauto.
  - destruct (claude_run_succeeds _ _ _ _ _ _ _ _ Hrun) as (wm & ? & _ & ? & _).
    eauto.
Qed.

Lemma run_observed prov JSON_parse texts responses (prompt : string)
    (atts : list Attachment) (currentMemo : memo) (model : option string)
    (trace : list obs) (outcome : result unit) :
  workflowOf prov JSON_parse texts responses prompt atts currentMemo model
  = (trace, outcome) →
  ∃ k, mergedThrough (patchOf prov JSON_parse responses) currentMemo k
       = Ok (observe currentMemo trace).
Proof.
  intros Hrun. destruct outcome as [[]|e].
  - destruct (successful_run_document_aux prov JSON_parse texts responses prompt
                atts currentMemo model trace Hrun) as (wm & ? & <-).
    by exists 6.
  - destruct prov; simpl in Hrun.
    + destruct (gemini_run_fails _ _ _ _ _ _ _ _ Hrun)
        as (k & wm & _ & _ & _ & _ & ? & _ & <-). by exists (k - 1).
    + destruct (claude_run_fails _ _ _ _ _ _ _ _ _ Hrun)
        as (k & wm & _ & _ & _ & _ & ? & _ & <-). by exists (k - 1).
Qed.

(** X15. Whatever the outcome of a run, a field of the caller's document
    that no phase writes is left as it was, and no field the document had
    is removed. *)
Theorem run_keeps_other_fields prov JSON_parse texts responses
    (prompt : string) (atts : list Attachment) (currentMemo : memo)
    (model : option string) (trace : list obs) (outcome : result unit)
    (Hrun : workflowOf prov JSON_parse texts responses prompt atts currentMemo
              model = (trace, outcome)) :
  (∀ X, (∀ k, X ∉ writtenFields k) →
        observe currentMemo trace !! X = currentMemo !! X) ∧
  (∀ X, is_Some (currentMemo !! X) →
        is_Some (observe currentMemo trace !! X)).
Proof.
  destruct (run_observed _ _ _ _ _ _ _ _ _ _ Hrun) as [k Hk]. split.
  - intros X HX. by eapply mergedThrough_keeps.
  - intros X [v Hv]. apply mergedThrough_covers in Hk. rewrite <-Hk.
    rewrite lookup_union, Hv. by destruct (observe currentMemo trace !! X).
Qed.

Lemma run_keeps_other_fields_witness :
  (∀ X, (∀ k, X ∉ writtenFields k) →
        observe sampleMemo (fst (sampleRun App.claude thirdCallDown)) !! X
        = sampleMemo !! X) ∧
  (∀ X, is_Some (sampleMemo !! X) →
        is_Some (observe sampleMemo (fst (sampleRun App.claude thirdCallDown))
                 !! X)).
Proof.
  apply (run_keeps_other_fields App.claude tableParse sampleTexts
           thirdCallDown "Analyze Acme Corp" [pdfAttachment; csvAttachment]
           sampleMemo (Some CLAUDE_SONNET) _
           (snd (sampleRun App.claude thirdCallDown))).
  by vm_compute.
Defined.

(** ** The requests of a run *)

Ltac claude_calls Hin :=
  repeat (apply elem_of_cons in Hin as [Hin|Hin];
          [first [ discriminate Hin
                 | injection Hin as -> ->; do 2 eexists;
                   split; [reflexivity|lia] ] |]);
  by apply elem_of_nil in Hin.

Lemma claude_call_options JSON_parse texts responses (prompt : string)
    (atts : list Attachment) (currentMemo : memo) (model : option string)
    (trace : list obs) (outcome : result unit) (n : nat) (r : request) :
  runClaudeWorkflow JSON_parse texts responses prompt atts currentMemo model
  = (trace, outcome) →
  Call n r ∈ trace →
  ∃ system user,
    r = ClaudeRequest
          (buildConfig (claudeOptions n (default CLAUDE_SONNET model)
                          system user atts))
    ∧ (1 ≤ n ≤ 6)%nat.
Proof.
  intros H Hin. unfold runClaudeWorkflow in H.
  do 18 (run_step H; [|injection H as <- <-; claude_calls Hin]).
  injection H as <- <-. claude_calls Hin.
Qed.

Ltac gemini_calls Hin :=
  repeat (apply elem_of_cons in Hin as [Hin|Hin];
          [first [ discriminate Hin
                 | injection Hin as -> ->; eexists;
                   split; [reflexivity|lia] ] |]);
  by apply elem_of_nil in Hin.

Lemma gemini_call_request JSON_parse texts responses (prompt : string)
    (atts : list Attachment) (currentMemo : memo)
    (trace : list obs) (outcome : result unit) (n : nat) (r : request) :
  runGeminiWorkflow JSON_parse texts responses prompt atts currentMemo
  = (trace, outcome) →
  Call n r ∈ trace →
  ∃ text,
    r = GeminiRequest
          {| g_model := "gemini-2.5-flash";
             parts := ((InlineData <$> match n with 1 => atts | _ => [] end)
                       ++ [TextPart text])%list;
             googleSearch := match n with 1 => true | _ => false end;
             responseMimeType := "application/json" |}
    ∧ (1 ≤ n ≤ 6)%nat.
Proof.
  intros H Hin. unfold runGeminiWorkflow in H.
  do 18 (run_step H; [|injection H as <- <-; gemini_calls Hin]).
  injection H as <- <-. gemini_calls Hin.
Qed.

Lemma requestOf_elem (n : nat) (trace : list obs) (r : request) :
  requestOf n trace = Some r → Call n r ∈ trace.
Proof.
  unfold requestOf. induction trace as [|o trace IH]; [done|].
  destruct o as [s|m r']; simpl.
  - intros H. apply list_elem_of_further. by apply IH.
  - destruct (Nat.eqb m n) eqn:E; simpl.
    + apply Nat.eqb_eq in E as ->. intros [= ->]. apply list_elem_of_here.
    + intros H. apply list_elem_of_further. by apply IH.
Qed.

(** X16. Only the first call of a run sees the attachments: every later
    request holds a single text (Claude: one text block; Gemini: one text
    part, and no search tool), and a run never makes a chat call. *)
Theorem attachments_only_in_phase_1 prov JSON_parse texts responses
    (prompt : string) (atts : list Attachment) (currentMemo : memo)
    (model : option string) (trace : list obs) (outcome : result unit)
    (n : nat) (r : request)
    (Hrun : workflowOf prov JSON_parse texts responses prompt atts currentMemo
              model = (trace, outcome))
    (Hin : Call n r ∈ trace) (Hn : n ≠ 1) :
  match r with
  | ClaudeRequest c => ∃ text, messages c = [TextBlock text]
  | GeminiRequest g =>
      ∃ text, parts g = [TextPart text] ∧ googleSearch g = false
  | GeminiChat _ _ => False
  end.
Proof.
  destruct prov; simpl in Hrun.
  - destruct (gemini_call_request _ _ _ _ _ _ _ _ _ _ Hrun Hin)
      as (text & -> & Hk).
    exists text. by destruct n as [|[|n]].
  - destruct (claude_call_options _ _ _ _ _ _ _ _ _ _ _ Hrun Hin)
      as (sys & usr & -> & Hk).
    exists usr. by destruct n as [|[|n]].
Qed.

Lemma attachments_only_in_phase_1_witness :
  ∃ text,
    messages (buildConfig
                (claudeOptions 2 CLAUDE_SONNET
                   "You are a financial modeling expert. You must output strictly valid JSON matching the FinancialModel schema."
                   "User Request: Analyze Acme Corp"
                   [pdfAttachment; csvAttachment]))
    = [TextBlock text].
Proof.
  apply (attachments_only_in_phase_1 App.claude tableParse sampleTexts
           (sampleReplies App.claude) "Analyze Acme Corp"
           [pdfAttachment; csvAttachment] sampleMemo (Some CLAUDE_SONNET)
           (fst (sampleRun App.claude (sampleReplies App.claude)))
           (snd (sampleRun App.claude (sampleReplies App.claude))) 2
           (ClaudeRequest _)).
  - by vm_compute.
  - apply requestOf_elem. by vm_compute.
  - lia.
Defined.

(** X17. The configuration of the Claude orchestrator's calls. Every call
    uses the chosen model. Phases 2, 3 and 4 ask for extended reasoning:
    token limit 16000, a thinking entry exactly when the model is
    [CLAUDE_SONNET], and temperature 0 otherwise. Phases 1, 5 and 6 run
    without it: token limit 8000 and temperatures 0.2, 0.1 and 0.4. Skills
    are attached in phases 1 (PDF), 2 (Excel) and 6 (PowerPoint and Word)
    only. *)
Theorem claude_phase_configuration JSON_parse texts responses
    (prompt : string) (atts : list Attachment) (currentMemo : memo)
    (chosen : option string) (trace : list obs) (outcome : result unit)
    (n : nat) (c : config)
    (Hrun : runClaudeWorkflow JSON_parse texts responses prompt atts
              currentMemo chosen = (trace, outcome))
    (Hin : Call n (ClaudeRequest c) ∈ trace) :
  model c = default CLAUDE_SONNET chosen ∧
  (n = 2 ∨ n = 3 ∨ n = 4 →
     max_tokens c = 16000%N
     ∧ (is_Some (thinking c) ↔ model c = CLAUDE_SONNET)
     ∧ (model c ≠ CLAUDE_SONNET → temperature c = Some 0%Q)) ∧
  (n = 1 ∨ n = 5 ∨ n = 6 →
     max_tokens c = 8000%N ∧ thinking c = None
     ∧ temperature c = Some match n with
                            | 1 => (2 # 10)%Q
                            | 5 => (1 # 10)%Q
                            | _ => (4 # 10)%Q
                            end) ∧
  container c = match n with
                | 1 => Some [SKILLS_PDF]
                | 2 => Some [SKILLS_EXCEL]
                | 6 => Some [SKILLS_PPT; SKILLS_DOCS]
                | _ => None
                end.
Proof.
  destruct (claude_call_options _ _ _ _ _ _ _ _ _ _ _ Hrun Hin)
    as (sys & usr & [= ->] & Hk).
  split; [done|].
  assert (n = 1 ∨ n = 2 ∨ n = 3 ∨ n = 4 ∨ n = 5 ∨ n = 6) as Hn by lia.
  unfold buildConfig.
  cbn [model max_tokens thinking temperature container claudeOptions
       o_model useThinking o_temperature skills default].
  destruct Hn as [->|[->|[->|[->|[->| ->]]]]];
    (split; [|split]); try done; try (intros [|[|]]; done);
    intros _; cbn [andb length]; (split; [done|]);
    case_bool_decide; unfold is_Some; naive_solver.
Qed.

Lemma claude_phase_configuration_witness :
  max_tokens (buildConfig
                (claudeOptions 2 CLAUDE_SONNET
                   "You are a financial modeling expert. You must output strictly valid JSON matching the FinancialModel schema."
                   "User Request: Analyze Acme Corp"
                   [pdfAttachment; csvAttachment]))
  = 16000%N.
Proof.
  edestruct (claude_phase_configuration tableParse sampleTexts
               (sampleReplies App.claude) "Analyze Acme Corp"
               [pdfAttachment; csvAttachment] sampleMemo
               (Some CLAUDE_SONNET)
               (fst (sampleRun App.claude (sampleReplies App.claude)))
               (snd (sampleRun App.claude (sampleReplies App.claude))) 2)
    as (_ & H2 & _).
  - by vm_compute.
  - apply requestOf_elem. by vm_compute.
  - apply H2. by left.
Defined.

Lemma settle_state (prov : App.ModelProvider) (text : string)
    (atts : list Attachment) (st : App.state) (trace : list obs)
    (shown : value) (st0 : App.state) :
  st0 = foldl App.onStep
          {| App.messages := (App.messages st ++ [userMessage prov text atts])%list;
             App.memoData := App.memoData st;
             App.workflowEvents := [];
             App.isGenerating := true |} trace →
  {| App.messages := App.messages (App.addMessage (replyMessage prov shown) st0);
     App.memoData := App.memoData (App.addMessage (replyMessage prov shown) st0);
     App.workflowEvents :=
       App.workflowEvents (App.addMessage (replyMessage prov shown) st0);
     App.isGenerating := false |}
  = settled prov text atts st trace shown.
Proof.
  intros ->. unfold settled, App.addMessage.
  cbn [App.messages App.memoData App.workflowEvents].
  match goal with
  | |- context [foldl App.onStep ?s trace] =>
      destruct (foldl_onStep s trace) as (Hm & He & Hs)
  end.
  rewrite Hm, He, Hs. cbn [App.messages App.memoData App.workflowEvents app].
  by rewrite <-app_assoc.
Qed.

Lemma handleSendMessage_eq JSON_parse texts responses
    (prov : App.ModelProvider) (claudeModel text : string)
    (atts : list Attachment) (st : App.state) :
  App.handleSendMessage JSON_parse texts responses prov claudeModel text atts st
  = match workflowOf prov JSON_parse texts responses text atts
            (App.memoData st) (Some claudeModel) with
    | (wtrace, Throw _) =>
        (wtrace,
         settled prov text atts st wtrace (VStr (App.errorNotice prov)))
    | (wtrace, Ok _) =>
        let c := confirmationOf prov texts responses claudeModel text in
        ((wtrace ++ fst c)%list,
         settled prov text atts st (wtrace ++ fst c) (shownFor prov (snd c)))
    end.
Proof.
  unfold App.handleSendMessage, workflowOf, confirmationOf.
  cbn [App.memoData].
  destruct prov.
  - destruct (runGeminiWorkflow _ _ _ _ _ _) as [wtrace [[]|e]].
    + destruct (App.streamChatResponse _ _) as [ctrace [v|e]];
        cbn [gbind tryCatch lift app fst snd shownFor];
        rewrite ?or_else_ok; cbn [gbind tryCatch lift app fst snd];
        rewrite ?app_nil_r; f_equal; by apply settle_state.
    + cbn [gbind tryCatch lift app fst snd]. rewrite ?app_nil_r.
      f_equal; by apply settle_state.
  - destruct (runClaudeWorkflow _ _ _ _ _ _ _) as [wtrace [[]|e]].
    + destruct (App.streamClaudeChatResponse _ _ _) as [ctrace [v|e]];
        cbn [gbind tryCatch lift app fst snd shownFor];
        rewrite ?or_else_ok; cbn [gbind tryCatch lift app fst snd];
        rewrite ?app_nil_r; f_equal; by apply settle_state.
    + cbn [gbind tryCatch lift app fst snd]. rewrite ?app_nil_r.
      f_equal; by apply settle_state.
Qed.

Lemma confirmation_trace (prov : App.ModelProvider) texts responses
    (claudeModel text : string) :
  fst (confirmationOf prov texts responses claudeModel text)
  = [Call 7 match prov with
            | App.claude =>
                ClaudeRequest
                  (buildConfig
                     {| o_model := claudeModel;
                        systemPrompt := "You are the CreditAlpha Orchestrator. Summarize the actions taken by the agents briefly.";
                        userPrompt := confirmationPrompt texts text;
                        o_attachments := None;
                        useThinking := Some false;
                        o_temperature := None;
                        skills := None |})
            | App.gemini =>
                GeminiChat
                  "You are the CreditAlpha Orchestrator. Summarize the actions taken by the agents briefly and confirm the analysis is ready for review."
                  (confirmationPrompt texts text)
            end].
Proof.
  destruct prov; unfold confirmationOf, App.streamChatResponse,
    App.streamClaudeChatResponse, generateWithClaude, gbind, lift.
  - by destruct (responses 7).
  - cbn [default]. destruct (responses 7) as [resp|]; [|done].
    by destruct (get resp "content").
Qed.

(** X18. Whatever the backend does, [handleSendMessage] adds exactly two
    messages to the chat, the user's and then one reply of the model for the
    same provider; it ends with [isGenerating] off; the event log holds the
    events of this run only; and the document is the caller's with the
    run's partial data folded in. *)
Theorem handler_always_answers JSON_parse texts responses
    (prov : App.ModelProvider) (claudeModel text : string)
    (atts : list Attachment) (st : App.state) :
  let r := App.handleSendMessage JSON_parse texts responses prov claudeModel
             text atts st in
  (∃ shown,
     App.messages (snd r)
     = (App.messages st
        ++ [userMessage prov text atts; replyMessage prov shown])%list)
  ∧ App.isGenerating (snd r) = false
  ∧ App.workflowEvents (snd r) = eventsOf (fst r)
  ∧ App.memoData (snd r) = observe (App.memoData st) (fst r).
Proof.
  intros r. subst r. rewrite handleSendMessage_eq.
  destruct (workflowOf _ _ _ _ _ _ _ _) as [wtrace [[]|e]];
    cbn [fst snd settled App.messages App.isGenerating App.workflowEvents
         App.memoData]; eauto.
Qed.

(** X19. When the workflow throws, [handleSendMessage] makes no
    confirmation call, shows the notice of a critical error (which does not
    carry the error's text), and keeps the document of the phases that
    completed and the event log up to the [failed] event. *)
Theorem failed_workflow_reported JSON_parse texts responses
    (prov : App.ModelProvider) (claudeModel text : string)
    (atts : list Attachment) (st : App.state) (wtrace : list obs) (e : exn)
    (Hrun : workflowOf prov JSON_parse texts responses text atts
              (App.memoData st) (Some claudeModel) = (wtrace, Throw e)) :
  let r := App.handleSendMessage JSON_parse texts responses prov claudeModel
             text atts st in
  fst r = wtrace
  ∧ (7 ∉ callsOf (fst r))
  ∧ lastContent (snd r) = Some (VStr (App.errorNotice prov))
  ∧ ∃ k wm, (1 ≤ k ≤ 6)%nat
      ∧ mergedThrough (patchOf prov JSON_parse responses) (App.memoData st)
          (k - 1) = Ok wm
      ∧ App.memoData (snd r) = wm
      ∧ tag <$> App.workflowEvents (snd r)
        = (completedLog (k - 1)
           ++ [(phaseAgent k, active); (Orchestrator, failed)])%list.
Proof.
  intros r. subst r. rewrite handleSendMessage_eq, Hrun.
  cbn [fst snd settled App.memoData App.workflowEvents].
  assert (∃ k wm, (1 ≤ k ≤ 6)%nat
            ∧ callsOf wtrace = seq 1 k
            ∧ tag <$> eventsOf wtrace
              = (completedLog (k - 1)
                 ++ [(phaseAgent k, active); (Orchestrator, failed)])%list
            ∧ mergedThrough (patchOf prov JSON_parse responses)
                (App.memoData st) (k - 1) = Ok wm
            ∧ observe (App.memoData st) wtrace = wm)
    as (k & wm & Hk & Hc & He & Hm & Ho).
  { destruct prov; simpl in Hrun.
    - destruct (gemini_run_fails _ _ _ _ _ _ _ _ Hrun)
        as (k & wm & ? & ? & ? & ? & ? & ? & ?). by exists k, wm.
    - destruct (claude_run_fails _ _ _ _ _ _ _ _ _ Hrun)
        as (k & wm & ? & ? & ? & ? & ? & ? & ?). by exists k, wm. }
  split; [done|]. split.
  { rewrite Hc. intros [_ ?]%elem_of_seq. lia. }
  split.
  { unfold lastContent, settled. cbn [App.messages].
    by rewrite last_app. }
  exists k, wm. done.
Qed.

Lemma failed_workflow_reported_witness :
  lastContent (snd (App.handleSendMessage tableParse sampleTexts thirdCallDown
                      App.claude CLAUDE_SONNET "Analyze Acme Corp" []
                      sampleState))
  = Some (VStr (App.errorNotice App.claude))
  ∧ callsOf (fst (App.handleSendMessage tableParse sampleTexts thirdCallDown
                    App.claude CLAUDE_SONNET "Analyze Acme Corp" []
                    sampleState))
    = [1; 2; 3].
Proof.
  assert (Hrun : workflowOf App.claude tableParse sampleTexts thirdCallDown
                   "Analyze Acme Corp" [] (App.memoData sampleState)
                   (Some CLAUDE_SONNET)
                 = (fst (workflowOf App.claude tableParse sampleTexts
                           thirdCallDown "Analyze Acme Corp" []
                           (App.memoData sampleState) (Some CLAUDE_SONNET)),
                    Throw (JsError "Overloaded")))
    by (by vm_compute).
  destruct (failed_workflow_reported tableParse sampleTexts thirdCallDown
              App.claude CLAUDE_SONNET "Analyze Acme Corp" [] sampleState
              _ _ Hrun) as (Ht & _ & Hl & _).
  split; [exact Hl|]. rewrite Ht. by vm_compute.
Defined.

(** X20. When the workflow completes, [handleSendMessage] makes exactly one
    more backend call, the seventh. For Claude it is a request on the
    chosen model with the confirmation prompt as its only block, without
    extended reasoning, skills or tools, at temperature 0 and with a token
    limit of 8000; for Gemini it is a chat message with the confirmation
    prompt. *)
Theorem confirmation_request JSON_parse texts responses
    (prov : App.ModelProvider) (claudeModel text : string)
    (atts : list Attachment) (st : App.state) (wtrace : list obs)
    (Hrun : workflowOf prov JSON_parse texts responses text atts
              (App.memoData st) (Some claudeModel) = (wtrace, Ok tt)) :
  ∃ req,
    fst (App.handleSendMessage JSON_parse texts responses prov claudeModel
           text atts st) = (wtrace ++ [Call 7 req])%list
    ∧ callsOf (wtrace ++ [Call 7 req]) = [1; 2; 3; 4; 5; 6; 7]
    ∧ match req with
      | ClaudeRequest c =>
          prov = App.claude
          ∧ model c = claudeModel
          ∧ messages c = [TextBlock (confirmationPrompt texts text)]
          ∧ thinking c = None
          ∧ temperature c = Some 0%Q
          ∧ max_tokens c = 8000%N
          ∧ container c = None ∧ tools c = None
      | GeminiChat _ message =>
          prov = App.gemini ∧ message = confirmationPrompt texts text
      | GeminiRequest _ => False
      end.
Proof.
  rewrite handleSendMessage_eq, Hrun. cbn [fst snd].
  rewrite confirmation_trace. eexists. split; [reflexivity|]. split.
  - unfold callsOf. rewrite omap_app. fold (callsOf wtrace).
    destruct prov; simpl in Hrun.
    + by destruct (gemini_run_succeeds _ _ _ _ _ _ _ Hrun)
        as (wm & _ & -> & _).
    + by destruct (claude_run_succeeds _ _ _ _ _ _ _ _ Hrun)
        as (wm & _ & -> & _).
  - by destruct prov.
Qed.

Lemma confirmation_request_witness :
  callsOf (fst (App.handleSendMessage tableParse sampleTexts
                  (sampleReplies App.gemini) App.gemini CLAUDE_SONNET
                  "Analyze Acme Corp" [] sampleState))
  = [1; 2; 3; 4; 5; 6; 7].
Proof.
  assert (Hrun : workflowOf App.gemini tableParse sampleTexts
                   (sampleReplies App.gemini) "Analyze Acme Corp" []
                   (App.memoData sampleState) (Some CLAUDE_SONNET)
                 = (fst (workflowOf App.gemini tableParse sampleTexts
                           (sampleReplies App.gemini) "Analyze Acme Corp" []
                           (App.memoData sampleState) (Some CLAUDE_SONNET)),
                    Ok tt))
    by (by vm_compute).
  destruct (confirmation_request tableParse sampleTexts
              (sampleReplies App.gemini) App.gemini CLAUDE_SONNET
              "Analyze Acme Corp" [] sampleState _ Hrun)
    as (req & -> & Hc & _).
  exact Hc.
Defined.

(** X21. A confirmation without text. With Claude, a response whose content
    holds no text block is shown as the placeholder [{}], not as the
    fallback sentence; with Gemini, a response without a truthy [text]
    is shown as the fallback sentence. *)
Theorem confirmation_without_text JSON_parse texts responses
    (prov : App.ModelProvider) (claudeModel text : string)
    (atts : list Attachment) (st : App.state) (wtrace : list obs)
    (resp : value)
    (Hrun : workflowOf prov JSON_parse texts responses text atts
              (App.memoData st) (Some claudeModel) = (wtrace, Ok tt))
    (Hresp : responses 7 = Ok resp)
    (Hno : match prov with
           | App.claude =>
               ∃ content, get resp "content" = Ok content
                 ∧ ∀ l, content = VArr l → Forall otherSegment l
           | App.gemini =>
               is_nullish resp = false
               ∧ truthy (get_opt resp "text") = false
           end) :
  lastContent (snd (App.handleSendMessage JSON_parse texts responses prov
                      claudeModel text atts st))
  = Some (VStr match prov with
               | App.claude => "{}"
               | App.gemini => App.fallbackText
               end).
Proof.
  rewrite handleSendMessage_eq, Hrun. cbn [fst snd settled].
  unfold lastContent, settled. cbn [App.messages].
  rewrite last_app. cbn [last fmap option_fmap option_map replyMessage App.content].
  do 2 f_equal. destruct prov.
  - destruct Hno as [Hn Ht].
    unfold confirmationOf, App.streamChatResponse, gbind, lift.
    rewrite Hresp. cbn [snd]. unfold get. rewrite Hn.
    unfold get_opt in Ht. rewrite Hn in Ht. cbn [snd shownFor]. by rewrite Ht.
  - destruct Hno as (content & Hc & Hl).
    unfold confirmationOf, App.streamClaudeChatResponse, generateWithClaude,
      gbind, lift.
    rewrite Hresp. cbn [snd]. rewrite Hc. cbn [snd].
    assert (extractText content = Ok (VStr "{}")) as ->; [|done].
    destruct content; try done. by apply extractText_default, Hl.
Qed.

Lemma confirmation_without_text_witness :
  lastContent (snd (App.handleSendMessage tableParse sampleTexts
                      confirmationWithoutText App.claude CLAUDE_SONNET
                      "Analyze Acme Corp" [] sampleState))
  = Some (VStr "{}").
Proof.
  assert (Hrun : workflowOf App.claude tableParse sampleTexts
                   confirmationWithoutText "Analyze Acme Corp" []
                   (App.memoData sampleState) (Some CLAUDE_SONNET)
                 = (fst (workflowOf App.claude tableParse sampleTexts
                           confirmationWithoutText "Analyze Acme Corp" []
                           (App.memoData sampleState) (Some CLAUDE_SONNET)),
                    Ok tt))
    by (by vm_compute).
  apply (confirmation_without_text tableParse sampleTexts
           confirmationWithoutText App.claude CLAUDE_SONNET
           "Analyze Acme Corp" [] sampleState _
           (obj [("content", VArr [obj [("type", VStr "tool_use")]])]) Hrun).
  - reflexivity.
  - eexists. split; [reflexivity|]. intros l [= <-].
    repeat constructor.
Defined.

Lemma handleLoanUpdate_ids {Loan : Type} (loan_id : Loan → string)
    (u : Loan) (prev : list Loan) :
  loan_id <$> handleLoanUpdate Loan loan_id u prev = loan_id <$> prev.
Proof.
  unfold handleLoanUpdate. rewrite <-list_fmap_compose.
  apply list_fmap_ext. intros i l _. simpl.
  destruct (String.eqb_spec (loan_id l) (loan_id u)); done.
Qed.

(** X22. [handleLoanUpdate] replaces in place: the list keeps its length
    and the order of its ids, every loan with the id of the update becomes
    the update, every other loan stays, and an update for an id that is
    not booked changes nothing. Updating twice is updating once. *)
Theorem loan_update_in_place {Loan : Type} (loan_id : Loan → string)
    (u : Loan) (prev : list Loan) :
  loan_id <$> handleLoanUpdate Loan loan_id u prev = loan_id <$> prev
  ∧ (loan_id u ∉ loan_id <$> prev → handleLoanUpdate Loan loan_id u prev = prev)
  ∧ (∀ l, l ∈ handleLoanUpdate Loan loan_id u prev →
          loan_id l = loan_id u → l = u)
  ∧ (∀ l, l ∈ prev → loan_id l ≠ loan_id u →
          l ∈ handleLoanUpdate Loan loan_id u prev)
  ∧ handleLoanUpdate Loan loan_id u (handleLoanUpdate Loan loan_id u prev)
    = handleLoanUpdate Loan loan_id u prev.
Proof.
  split; [apply handleLoanUpdate_ids|]. split; [|split; [|split]].
  - intros Hn. unfold handleLoanUpdate.
    rewrite <-(list_fmap_id prev) at 2. apply list_fmap_ext.
    intros i l Hl. simpl.
    destruct (String.eqb_spec (loan_id l) (loan_id u)) as [E|]; [|done].
    destruct Hn. rewrite <-E. apply list_elem_of_fmap_2.
    by eapply list_elem_of_lookup_2.
  - intros l (l0 & -> & _)%list_elem_of_fmap.
    by destruct (String.eqb_spec (loan_id l0) (loan_id u)).
  - intros l Hl Hne. apply list_elem_of_fmap. exists l. split; [|done].
    by destruct (String.eqb_spec (loan_id l) (loan_id u)).
  - unfold handleLoanUpdate. rewrite <-list_fmap_compose.
    apply list_fmap_ext. intros i l _. simpl.
    destruct (String.eqb_spec (loan_id l) (loan_id u)) as [E|E].
    + by rewrite String.eqb_refl.
    + by destruct (String.eqb_spec (loan_id l) (loan_id u)).
Qed.
